(** * Visible-region bounds of a map view: BoundsGenerator and
      StaticElevationRangeSource

    A shallow embedding of [@here/harp-mapview/lib/BoundsGenerator.ts] and of
    the static elevation range source, with the properties their
    specification states.

    Numbers.  Coordinates (degrees, metres, world units, NDC) are finite
    numbers and are modelled as rationals [Q], with exact arithmetic: rounding
    of binary64 is outside the model.  The two running extrema of
    [normalizeCoordinates] start at [Infinity] and [-Infinity]; they live in
    the type [number], which adds the infinities (and [NaN], so that its
    arithmetic is total) to the rationals.

    Imports.  The camera and the projection are values of two abstract types.
    Whatever the generator asks of them, of three.js, of [MapViewUtils] and of
    [@here/harp-geoutils] is a field of the record [Externals]: the generator
    is verified for every implementation of these functions. *)

From Stdlib Require Import QArith Lqa Lia List Bool Arith Permutation.
Import ListNotations.

Set Implicit Arguments.

Local Open Scope Q_scope.

(* ------------------------------------------------------------------ *)
(** ** Numbers *)

Definition Qltb (a b : Q) : bool :=
  match a ?= b with Lt => true | _ => false end.

Definition Qgtb (a b : Q) : bool := Qltb b a.

Definition Qeqb0 (a : Q) : bool := Qeq_bool a 0.

Module Number.

(** A JavaScript number whose finite values are exact rationals. *)
Inductive number : Type :=
| NaN
| NegInfinity
| Finite (q : Q)
| Infinity.

(** [a < b]; false as soon as one side is [NaN]. *)
Definition lt (a b : number) : bool :=
  match a, b with
  | NaN, _ | _, NaN => false
  | NegInfinity, NegInfinity => false
  | NegInfinity, _ => true
  | Finite _, NegInfinity => false
  | Finite p, Finite q => Qltb p q
  | Finite _, Infinity => true
  | Infinity, _ => false
  end.

(** [a >= b]; false as soon as one side is [NaN]. *)
Definition ge (a b : number) : bool :=
  match a, b with
  | NaN, _ | _, NaN => false
  | _, _ => negb (lt a b)
  end.

Definition add (a b : number) : number :=
  match a, b with
  | NaN, _ | _, NaN => NaN
  | Infinity, NegInfinity | NegInfinity, Infinity => NaN
  | Infinity, _ | _, Infinity => Infinity
  | NegInfinity, _ | _, NegInfinity => NegInfinity
  | Finite p, Finite q => Finite (p + q)
  end.

Definition neg (a : number) : number :=
  match a with
  | NaN => NaN
  | NegInfinity => Infinity
  | Finite p => Finite (- p)
  | Infinity => NegInfinity
  end.

Definition sub (a b : number) : number := add a (neg b).

(** [Math.min] and [Math.max] of two numbers. *)
Definition Math_min (a b : number) : number :=
  match a, b with
  | NaN, _ | _, NaN => NaN
  | _, _ => if lt b a then b else a
  end.

Definition Math_max (a b : number) : number :=
  match a, b with
  | NaN, _ | _, NaN => NaN
  | _, _ => if lt a b then b else a
  end.

End Number.
Import Number.

Coercion Finite : Q >-> number.

(* ------------------------------------------------------------------ *)
(** ** Data of three.js and of harp-geoutils *)

Record Vector3 : Type := vec3 { x : Q; y : Q; z : Q }.

(** [a.sub(b)] and [new Vector3().subVectors(a, b)]: both give [a - b]; the
    first stores it in [a]. *)
Definition subVectors (a b : Vector3) : Vector3 :=
  vec3 (x a - x b) (y a - y b) (z a - z b).

Definition addVectors (a b : Vector3) : Vector3 :=
  vec3 (x a + x b) (y a + y b) (z a + z b).

Definition multiplyScalar (a : Vector3) (s : Q) : Vector3 :=
  vec3 (x a * s) (y a * s) (z a * s).

Record Plane : Type := mkPlane { normal : Vector3; constant : Q }.

Record Sphere : Type := mkSphere { center : Vector3; radius : Q }.

Record Ray : Type := mkRay { origin : Vector3; direction : Vector3 }.

Record Line3 : Type := mkLine3 { line_start : Vector3; line_end : Vector3 }.

Record Box3 : Type := mkBox3 { box_min : Vector3; box_max : Vector3 }.

(** A frustum is made of six planes; [planes] is its array. *)
Record Frustum : Type :=
  mkFrustum { p0 : Plane; p1 : Plane; p2 : Plane; p3 : Plane; p4 : Plane; p5 : Plane }.

Definition planes (f : Frustum) : list Plane :=
  [p0 f; p1 f; p2 f; p3 f; p4 f; p5 f].

(** The argument [edge: Line3 | Ray] of [addFrustumIntersection]. *)
Inductive Edge : Type :=
| EdgeLine (l : Line3)
| EdgeRay (r : Ray).

Record GeoCoordinates : Type :=
  mkGeo { latitude : Q; longitude : Q; altitude : option Q }.

Definition set_longitude (c : GeoCoordinates) (l : Q) : GeoCoordinates :=
  mkGeo (latitude c) l (altitude c).

Definition set_altitude (c : GeoCoordinates) (a : Q) : GeoCoordinates :=
  mkGeo (latitude c) (longitude c) (Some a).

Inductive ProjectionType : Type := Planar | Spherical.

Definition ProjectionType_eqb (a b : ProjectionType) : bool :=
  match a, b with
  | Planar, Planar | Spherical, Spherical => true
  | _, _ => false
  end.

Record TileCorners : Type :=
  mkTileCorners { se : Vector3; sw : Vector3; ne : Vector3; nw : Vector3 }.

Record GeoPolygon : Type := mkGeoPolygon { coordinates : list GeoCoordinates }.

Inductive FarPlaneSide : Type := Bottom | Right | Top | Left.

(* ------------------------------------------------------------------ *)
(** ** What a call can end in *)

Inductive error : Type :=
| AssertionFailed   (* thrown by [assert] of harp-utils *)
| TypeError.        (* a property read on [undefined] *)

Inductive completion (A : Type) : Type :=
| Normal (a : A)
| Throw (e : error).

Arguments Normal {A} a.
Arguments Throw {A} e.

Definition bind {A B : Type} (c : completion A) (k : A -> completion B)
  : completion B :=
  match c with
  | Normal a => k a
  | Throw e => Throw e
  end.

Notation "x <- c ;; k" := (bind c (fun x => k))
  (at level 61, c at next level, right associativity).
Notation "c ;;; k" := (bind c (fun _ => k))
  (at level 61, right associativity).

(* ------------------------------------------------------------------ *)
(** ** The imported functions *)

Section Imports.

Variables Camera Projection : Type.

(** Everything [BoundsGenerator] calls and does not define.
    - of the projection: its [type], [unprojectPoint], [worldExtent];
    - of three.js: [Vector3.unproject(camera)], [Vector3.project(camera)],
      [Vector3.normalize], the frustum of a camera, that is
      [new Frustum().setFromProjectionMatrix(projectionMatrix *
      matrixWorldInverse)], [Frustum.containsPoint],
      [Ray.intersectSphere], [Ray.intersectsPlane], [Ray.intersectPlane],
      [Plane.intersectsLine], [Plane.intersectLine];
    - of [MapViewUtils]: [rayCastWorldCoordinates], [closeToFrustum];
    - of [EarthConstants]: the two constants;
    - of [GeoPolygon]: the counter-clockwise sort its constructor runs when
      asked to;
    - of harp-utils: whether [assert] is compiled out ([isProduction]). *)
Record Externals : Type := {
  projection_type : Projection -> ProjectionType;
  unprojectPoint : Projection -> Vector3 -> GeoCoordinates;
  worldExtent : Projection -> Q -> Q -> Box3;
  unproject : Vector3 -> Camera -> Vector3;
  project : Vector3 -> Camera -> Vector3;
  normalize : Vector3 -> Vector3;
  cameraFrustum : Camera -> Frustum;
  containsPoint : Frustum -> Vector3 -> bool;
  Ray_intersectSphere : Ray -> Sphere -> option Vector3;
  Ray_intersectsPlane : Ray -> Plane -> bool;
  Ray_intersectPlane : Ray -> Plane -> option Vector3;
  Plane_intersectsLine : Plane -> Line3 -> bool;
  Plane_intersectLine : Plane -> Line3 -> option Vector3;
  rayCastWorldCoordinates : Camera -> Projection -> Q -> Q -> option Vector3;
  closeToFrustum : Vector3 -> Camera -> bool;
  EQUATORIAL_RADIUS : Q;
  EQUATORIAL_CIRCUMFERENCE : Q;
  sortCCW : list GeoCoordinates -> list GeoCoordinates;
  isProduction : bool
}.

(** The fields of the class. *)
Record BoundsGenerator : Type := {
  m_camera : Camera;
  m_projection : Projection;
  tileWrappingEnabled : bool
}.

End Imports.

(* ------------------------------------------------------------------ *)
(** ** BoundsGenerator *)

Section Generator.

Context {Camera Projection : Type}.
Variable X : Externals Camera Projection.
Variable this : BoundsGenerator Camera Projection.

(** Modelled from the spec: [assert] of harp-utils is not among the sources.
    It is the "internal consistency check" whose violation is "a
    programming-contract violation": it throws on a false condition.  A
    production build may compile it out ([isProduction]); then it does
    nothing. *)
Definition assert (condition : bool) : completion unit :=
  if isProduction X then Normal tt
  else if condition then Normal tt else Throw AssertionFailed.

Definition m_groundPlaneNormal : Vector3 := vec3 0 0 1.
Definition m_groundPlane : Plane := mkPlane m_groundPlaneNormal 0.
Definition m_groundSphere : Sphere :=
  mkSphere (vec3 0 0 0) (EQUATORIAL_RADIUS X).

(** Modelled from the spec: the class [GeoPolygon] of harp-geoutils is not
    among the sources.  [new GeoPolygon(coordinates, needsSort)] is
    "constructed with a flag indicating whether the constructor must re-sort
    vertices into a consistent (counter-clockwise) winding"; the sort itself
    is the import [sortCCW]. *)
Definition new_GeoPolygon (coords : list GeoCoordinates) (needsSort : bool)
  : GeoPolygon :=
  mkGeoPolygon (if needsSort then sortCCW X coords else coords).

(** The loop that finds the least and the greatest longitude; the pair is
    ([minLongitude], [maxLongitude]). *)
Definition longitudeRange (coords : list GeoCoordinates) : number * number :=
  fold_left
    (fun range geoCoords =>
       (Math_min (fst range) (longitude geoCoords),
        Math_max (snd range) (longitude geoCoords)))
    coords (Infinity, NegInfinity).

(** The last loop of [normalizeCoordinates]. *)
Definition shiftNegativeLongitudes (coords : list GeoCoordinates)
  : list GeoCoordinates :=
  map (fun geoCoord =>
         if Qltb (longitude geoCoord) 0
         then set_longitude geoCoord (360 + longitude geoCoord)
         else geoCoord)
      coords.

(** The array is updated in place; the model returns its new contents. *)
Definition normalizeCoordinates (coords : list GeoCoordinates)
  : list GeoCoordinates :=
  let '(minLongitude, maxLongitude) := longitudeRange coords in
  if ge minLongitude 0 || lt maxLongitude 0 then coords
  else
    let cameraTarget :=
      rayCastWorldCoordinates X (m_camera this) (m_projection this) 0 0 in
    match cameraTarget with
    | Some target =>
        let targetLongitude :=
          longitude (unprojectPoint X (m_projection this) target) in
        if Qgtb targetLongitude (-90) && Qltb targetLongitude 90
        then coords
        else shiftNegativeLongitudes coords
    | None =>
        if lt (sub maxLongitude minLongitude)
              (sub (add 360 minLongitude) maxLongitude)
        then coords
        else shiftNegativeLongitudes coords
    end.

Definition createPolygon (coords : list GeoCoordinates) (sort : bool)
           (normalize : bool) : option GeoPolygon :=
  if (2 <? length coords)%nat then
    let coords := if normalize then normalizeCoordinates coords else coords in
    Some (new_GeoPolygon coords sort)
  else None.

Definition isInVisibleMap (point : Vector3) : bool :=
  match projection_type X (m_projection this) with
  | Planar =>
      if Qltb (y point) 0 || Qgtb (y point) (EQUATORIAL_CIRCUMFERENCE X)
      then false
      else if negb (tileWrappingEnabled this)
              && (Qltb (x point) 0
                  || Qgtb (x point) (EQUATORIAL_CIRCUMFERENCE X))
      then false
      else true
  | Spherical => true
  end.

Definition validateAndAddToGeoPolygon (point : Vector3)
           (geoPolygon : list GeoCoordinates) : list GeoCoordinates :=
  if isInVisibleMap point
  then geoPolygon ++ [unprojectPoint X (m_projection this) point]
  else geoPolygon.

Definition addNDCRayIntersection (ndcPoints : list (Q * Q))
           (geoPolygon : list GeoCoordinates) : list GeoCoordinates :=
  fold_left
    (fun geoPolygon corner =>
       match rayCastWorldCoordinates X (m_camera this) (m_projection this)
               (fst corner) (snd corner) with
       | Some intersection =>
           validateAndAddToGeoPolygon intersection geoPolygon
       | None => geoPolygon
       end)
    ndcPoints geoPolygon.

Definition addCanvasCornerIntersection (geoPolygon : list GeoCoordinates)
           (addMidPoints : bool) : list GeoCoordinates :=
  if addMidPoints
  then addNDCRayIntersection
         [(-1, -1); (1, -1); (1, 1); (-1, 1)] geoPolygon
  else addNDCRayIntersection
         [(-1, -1); (-1, 1); (1, 1); (1, -1)] geoPolygon.

Definition getVerticalHorizonPositionInNDC : option Q :=
  match projection_type X (m_projection this) with
  | Spherical => None
  | Planar =>
      let bottomMidFarPoint :=
        multiplyScalar
          (addVectors (unproject X (vec3 (-1) (-1) 1) (m_camera this))
                      (unproject X (vec3 1 (-1) 1) (m_camera this)))
          0.5 in
      let topMidFarPoint :=
        multiplyScalar
          (addVectors (unproject X (vec3 (-1) 1 1) (m_camera this))
                      (unproject X (vec3 1 1 1) (m_camera this)))
          0.5 in
      let farPlaneVerticalCenterLine :=
        mkLine3 bottomMidFarPoint topMidFarPoint in
      match Plane_intersectLine X m_groundPlane farPlaneVerticalCenterLine with
      | None => None
      | Some verticalHorizonPosition =>
          Some (y (project X verticalHorizonPosition (m_camera this)))
      end
  end.

Definition addHorizonIntersection (geoPolygon : list GeoCoordinates)
  : list GeoCoordinates :=
  match projection_type X (m_projection this) with
  | Planar =>
      match getVerticalHorizonPositionInNDC with
      | None => geoPolygon
      | Some verticalHorizonPosition =>
          (* [!verticalHorizonPosition] also holds of the number 0 *)
          if Qeqb0 verticalHorizonPosition then geoPolygon
          else addNDCRayIntersection
                 [(-1, verticalHorizonPosition); (1, verticalHorizonPosition)]
                 geoPolygon
      end
  | Spherical =>
      let topLeftFarPoint := unproject X (vec3 (-1) 1 1) (m_camera this) in
      let bottomLeftFarPoint := unproject X (vec3 (-1) (-1) 1) (m_camera this) in
      let leftRay :=
        mkRay topLeftFarPoint (subVectors bottomLeftFarPoint topLeftFarPoint) in
      let geoPolygon :=
        match Ray_intersectSphere X leftRay m_groundSphere with
        | Some leftHorizonIntersection =>
            validateAndAddToGeoPolygon leftHorizonIntersection geoPolygon
        | None => geoPolygon
        end in
      let topRightFarPoint := unproject X (vec3 1 1 1) (m_camera this) in
      let bottomRightPoint := unproject X (vec3 1 (-1) 1) (m_camera this) in
      let rightRay :=
        mkRay topRightFarPoint (subVectors bottomRightPoint topRightFarPoint) in
      match Ray_intersectSphere X rightRay m_groundSphere with
      | Some rightHorizonIntersection =>
          validateAndAddToGeoPolygon rightHorizonIntersection geoPolygon
      | None => geoPolygon
      end
  end.

Definition addPointInFrustum (point : Vector3) (frustum : Frustum)
           (geoPolygon : list GeoCoordinates) : list GeoCoordinates :=
  if containsPoint X frustum point
  then geoPolygon
         ++ [set_altitude (unprojectPoint X (m_projection this) point) 0]
  else geoPolygon.

(** The body of the loop over [frustum.planes]: the intersection of [edge]
    with one plane, if the edge meets it. *)
Definition edgePlaneIntersection (edge : Edge) (plane : Plane)
  : option Vector3 :=
  match edge with
  | EdgeRay r =>
      if Ray_intersectsPlane X r plane
      then Ray_intersectPlane X r plane else None
  | EdgeLine l =>
      if Plane_intersectsLine X plane l
      then Plane_intersectLine X plane l else None
  end.

Definition addFrustumIntersection (edge : Edge) (frustum : Frustum)
           (geoPolygon : list GeoCoordinates) : list GeoCoordinates :=
  fold_left
    (fun geoPolygon plane =>
       match edgePlaneIntersection edge plane with
       | Some intersection =>
           if closeToFrustum X intersection (m_camera this)
           then geoPolygon
                  ++ [set_altitude
                        (unprojectPoint X (m_projection this) intersection) 0]
           else geoPolygon
       | None => geoPolygon
       end)
    (planes frustum) geoPolygon.

Definition getWorldConers (projection : Projection) : option TileCorners :=
  match projection_type X projection with
  | Spherical => None
  | Planar =>
      let worldBox := worldExtent X projection 0 0 in
      Some {| sw := box_min worldBox;
              se := vec3 (x (box_max worldBox)) (y (box_min worldBox)) 0;
              nw := vec3 (x (box_min worldBox)) (y (box_max worldBox)) 0;
              ne := box_max worldBox |}
  end.

Definition farPlaneSideCorners (side : FarPlaneSide) : Vector3 * Vector3 :=
  match side with
  | Bottom => (vec3 (-1) (-1) 1, vec3 1 (-1) 1)
  | Right => (vec3 1 1 1, vec3 1 (-1) 1)
  | Top => (vec3 (-1) 1 1, vec3 1 1 1)
  | Left => (vec3 (-1) 1 1, vec3 (-1) (-1) 1)
  end.

(** [Vector3.sub] stores its result in the receiver and a [Ray] keeps the
    vectors it is given, so the second ray starts at the direction of the
    first: every rebinding below is one in-place update of the source. *)
Definition addFarPlaneSideIntersections (coords : list GeoCoordinates)
           (side : FarPlaneSide) : completion (list GeoCoordinates) :=
  assert (ProjectionType_eqb (projection_type X (m_projection this)) Spherical) ;;;
  let '(cornerA, cornerB) := farPlaneSideCorners side in
  let cornerAWorld := unproject X cornerA (m_camera this) in
  let cornerBWorld := unproject X cornerB (m_camera this) in
  (* cornerBWorld.sub(cornerAWorld) *)
  let cornerBWorld := subVectors cornerBWorld cornerAWorld in
  let abRay := mkRay cornerAWorld cornerBWorld in
  let coords :=
    match Ray_intersectSphere X abRay m_groundSphere with
    | Some abIntersection =>
        coords ++ [unprojectPoint X (m_projection this) abIntersection]
    | None => coords
    end in
  (* cornerAWorld.sub(cornerBWorld) *)
  let cornerAWorld := subVectors cornerAWorld cornerBWorld in
  let baRay := mkRay cornerBWorld cornerAWorld in
  let coords :=
    match Ray_intersectSphere X baRay m_groundSphere with
    | Some baIntersection =>
        coords ++ [unprojectPoint X (m_projection this) baIntersection]
    | None => coords
    end in
  Normal coords.

Definition findBoundsIntersectionsOnSphere : completion (list GeoCoordinates) :=
  assert (ProjectionType_eqb (projection_type X (m_projection this)) Spherical) ;;;
  let coords := addCanvasCornerIntersection [] false in
  if (length coords =? 4)%nat then Normal coords
  else
    coords <- (if (length coords =? 0)%nat
               then addFarPlaneSideIntersections coords Bottom
               else assert (length coords =? 2)%nat ;;; Normal coords) ;;
    coords <- addFarPlaneSideIntersections coords Right ;;
    coords <- addFarPlaneSideIntersections coords Top ;;
    coords <- addFarPlaneSideIntersections coords Left ;;
    Normal coords.

Definition subdivideSides (coords : list GeoCoordinates)
  : list GeoCoordinates :=
  coords.

Definition generateOnSphere : completion (option GeoPolygon) :=
  assert (ProjectionType_eqb (projection_type X (m_projection this)) Spherical) ;;;
  found <- findBoundsIntersectionsOnSphere ;;
  let coords := subdivideSides found in
  Normal (createPolygon coords true true).

(** The four finite world edges and the four rays of the wrapped world. *)
Definition worldEdges (worldCorners : TileCorners) : list Edge :=
  [ EdgeLine (mkLine3 (sw worldCorners) (se worldCorners));
    EdgeLine (mkLine3 (ne worldCorners) (nw worldCorners));
    EdgeLine (mkLine3 (se worldCorners) (ne worldCorners));
    EdgeLine (mkLine3 (nw worldCorners) (sw worldCorners)) ].

Definition worldRays (worldCorners : TileCorners) : list Edge :=
  let directionEast :=
    normalize X (subVectors (sw worldCorners) (se worldCorners)) in
  let directionWest :=
    normalize X (subVectors (se worldCorners) (sw worldCorners)) in
  [ EdgeRay (mkRay (se worldCorners) directionEast);
    EdgeRay (mkRay (se worldCorners) directionWest);
    EdgeRay (mkRay (ne worldCorners) directionEast);
    EdgeRay (mkRay (ne worldCorners) directionWest) ].

Definition generateOnPlane : completion (option GeoPolygon) :=
  let coords := addCanvasCornerIntersection [] false in
  if (length coords =? 4)%nat then Normal (createPolygon coords true false)
  else
    let coords := addHorizonIntersection coords in
    let frustum := cameraFrustum X (m_camera this) in
    match getWorldConers (m_projection this) with
    | None => Throw TypeError
    | Some worldCorners =>
        let coords :=
          if negb (tileWrappingEnabled this)
          then fold_left
                 (fun coords corner => addPointInFrustum corner frustum coords)
                 [ne worldCorners; nw worldCorners;
                  se worldCorners; sw worldCorners]
                 coords
          else coords in
        let coords :=
          if negb (tileWrappingEnabled this)
          then fold_left
                 (fun coords edge => addFrustumIntersection edge frustum coords)
                 (worldEdges worldCorners) coords
          else fold_left
                 (fun coords ray => addFrustumIntersection ray frustum coords)
                 (worldRays worldCorners) coords in
        Normal (createPolygon coords true false)
    end.

Definition generate : completion (option GeoPolygon) :=
  match projection_type X (m_projection this) with
  | Planar => generateOnPlane
  | Spherical => generateOnSphere
  end.

End Generator.

(* ------------------------------------------------------------------ *)
(** ** The specification's reading of the algorithms

    The definitions of this section follow the words of the specification,
    not the code; the theorems compare them with the code above. *)

Section Specification.

Context {Camera Projection : Type}.
Variable X : Externals Camera Projection.
Variable this : BoundsGenerator Camera Projection.

(** "Raycast the 4 NDC viewport corners ... Valid hits become polygon
    vertices." *)
Definition ndcCorners : list (Q * Q) := [(-1, -1); (-1, 1); (1, 1); (1, -1)].

Definition validCornerHits : list GeoCoordinates :=
  flat_map
    (fun corner =>
       match rayCastWorldCoordinates X (m_camera this) (m_projection this)
               (fst corner) (snd corner) with
       | Some hit =>
           if isInVisibleMap X this hit
           then [unprojectPoint X (m_projection this) hit] else []
       | None => []
       end)
    ndcCorners.

(** "test each of the 4 world-rectangle corners for frustum containment;
    any contained corner is added (altitude forced to 0)". *)
Definition containedWorldCorners (frustum : Frustum)
           (worldCorners : TileCorners) : list GeoCoordinates :=
  flat_map
    (fun corner =>
       if containsPoint X frustum corner
       then [set_altitude (unprojectPoint X (m_projection this) corner) 0]
       else [])
    [ne worldCorners; nw worldCorners; se worldCorners; sw worldCorners].

(** "intersect [the edge] against every frustum plane; each valid
    intersection (subject to a tolerance check against the frustum) is
    added with altitude forced to 0". *)
Definition confirmedIntersections (frustum : Frustum) (edge : Edge)
  : list GeoCoordinates :=
  flat_map
    (fun plane =>
       match edgePlaneIntersection X edge plane with
       | Some intersection =>
           if closeToFrustum X intersection (m_camera this)
           then [set_altitude
                   (unprojectPoint X (m_projection this) intersection) 0]
           else []
       | None => []
       end)
    (planes frustum).

(** Steps 5 and 6 of the planar algorithm. *)
Definition worldBoundaryPoints (frustum : Frustum)
           (worldCorners : TileCorners) : list GeoCoordinates :=
  if tileWrappingEnabled this
  then flat_map (confirmedIntersections frustum) (worldRays X worldCorners)
  else containedWorldCorners frustum worldCorners
         ++ flat_map (confirmedIntersections frustum)
                     (worldEdges worldCorners).

(** The boundary points the planar algorithm has accumulated when it
    builds its polygon (steps 1 to 6). *)
Definition planeBoundaryPoints : completion (list GeoCoordinates) :=
  if (length validCornerHits =? 4)%nat then Normal validCornerHits
  else
    match getWorldConers X (m_projection this) with
    | None => Throw TypeError
    | Some worldCorners =>
        Normal (addHorizonIntersection X this validCornerHits
                  ++ worldBoundaryPoints
                       (cameraFrustum X (m_camera this)) worldCorners)
    end.

(** The boundary points [generate] has accumulated when it decides between
    a polygon and absence. *)
Definition boundaryPoints : completion (list GeoCoordinates) :=
  match projection_type X (m_projection this) with
  | Planar => planeBoundaryPoints
  | Spherical =>
      found <- findBoundsIntersectionsOnSphere X this ;;
      Normal (subdivideSides found)
  end.

(** How many of the four corner raycasts hit the ground. *)
Definition cornerHitCount : nat :=
  length
    (filter
       (fun corner =>
          match rayCastWorldCoordinates X (m_camera this) (m_projection this)
                  (fst corner) (snd corner) with
          | Some _ => true
          | None => false
          end)
       ndcCorners).

End Specification.

(** "all non-negative or all negative" *)
Definition allNonNegative (coords : list GeoCoordinates) : Prop :=
  Forall (fun c => 0 <= longitude c) coords.

Definition allNegative (coords : list GeoCoordinates) : Prop :=
  Forall (fun c => longitude c < 0) coords.


(** [lo] is the least and [hi] the greatest longitude of the list. *)
Definition longitudeExtrema (coords : list GeoCoordinates) (lo hi : Q) : Prop :=
  In lo (map longitude coords) /\ In hi (map longitude coords)
  /\ Forall (fun c => lo <= longitude c /\ longitude c <= hi) coords.

(** Two sets of imports that give a generator the same projection type, the
    same NDC raycasts, the same unprojection, the same world size and the
    same polygon sort.  Everything else may differ: the far-plane
    unprojection, the frustum, the plane, line, ray and sphere
    intersections, the world extent. *)
Definition sameCornerView {Camera Projection : Type}
           (X X' : Externals Camera Projection)
           (this : BoundsGenerator Camera Projection) : Prop :=
  projection_type X (m_projection this) = projection_type X' (m_projection this)
  /\ (forall ndcX ndcY,
         rayCastWorldCoordinates X (m_camera this) (m_projection this) ndcX ndcY
         = rayCastWorldCoordinates X' (m_camera this) (m_projection this)
             ndcX ndcY)
  /\ (forall p, unprojectPoint X (m_projection this) p
                = unprojectPoint X' (m_projection this) p)
  /\ EQUATORIAL_CIRCUMFERENCE X = EQUATORIAL_CIRCUMFERENCE X'
  /\ (forall l, sortCCW X l = sortCCW X' l).

(* ------------------------------------------------------------------ *)
(** ** StaticElevationRangeSource *)

Module ElevationRangeSource.

Inductive CalculationStatus : Type := PendingApproximate | FinalPrecise.

Record ElevationRange : Type := {
  minElevation : Q;
  maxElevation : Q;
  calculationStatus : option CalculationStatus
}.

(** The state of a promise when it is handed to the caller. *)
Inductive Promise (A : Type) : Type :=
| Pending
| Fulfilled (value : A)
| Rejected.

Arguments Pending {A}.
Arguments Fulfilled {A} value.
Arguments Rejected {A}.

(** [Promise.resolve()] *)
Definition Promise_resolve : Promise unit := Fulfilled tt.

Section Static.

Variables TilingScheme TileKey : Type.

(** What the constructor reads of a [DataSource]. *)
Record DataSource : Type := {
  ds_getTilingScheme : TilingScheme;
  minGeometryHeight : Q;
  maxGeometryHeight : Q
}.

Record StaticElevationRangeSource : Type := {
  m_tilingScheme : TilingScheme;
  m_minElevation : Q;
  m_maxElevation : Q
}.

(** [constructor(dataSource: DataSource | TilingScheme, minElevation = 0,
    maxElevation = 0)] *)
Definition new_StaticElevationRangeSource
           (dataSource : DataSource + TilingScheme)
           (minElevation maxElevation : option Q)
  : StaticElevationRangeSource :=
  let minElevation := match minElevation with Some v => v | None => 0 end in
  let maxElevation := match maxElevation with Some v => v | None => 0 end in
  match dataSource with
  | inl dataSource =>
      {| m_tilingScheme := ds_getTilingScheme dataSource;
         m_minElevation := minGeometryHeight dataSource;
         m_maxElevation := maxGeometryHeight dataSource |}
  | inr tilingScheme =>
      {| m_tilingScheme := tilingScheme;
         m_minElevation := minElevation;
         m_maxElevation := maxElevation |}
  end.

Definition getElevationRange (this : StaticElevationRangeSource)
           (tileKey : TileKey) : ElevationRange :=
  {| minElevation := m_minElevation this;
     maxElevation := m_maxElevation this;
     calculationStatus := Some FinalPrecise |}.

Definition getTilingScheme (this : StaticElevationRangeSource)
  : TilingScheme :=
  m_tilingScheme this.

Definition connect (this : StaticElevationRangeSource) : Promise unit :=
  Promise_resolve.

Definition ready (this : StaticElevationRangeSource) : bool := true.

End Static.

End ElevationRangeSource.

(* ------------------------------------------------------------------ *)
(** ** A perspective camera over the globe *)

Module Pinhole.

Definition dot (a b : Vector3) : Q := x a * x b + y a * y b + z a * z b.

(** Modelled from the spec: the three.js camera and
    [MapViewUtils.rayCastWorldCoordinates] are not among the sources.  The
    camera is "a perspective camera with a projection matrix and world
    transform" that "supplies ray-casting from normalized device coordinates
    (NDC) into world space".  Here it is its position [eye], the world-space
    images [right], [up], [forward] of its axes, and the half extents [tanX],
    [tanY] of its view at distance one, the view being centred on the
    forward axis. *)
Record PerspectiveCamera : Type := {
  eye : Vector3;
  right : Vector3;
  up : Vector3;
  forward : Vector3;
  tanX : Q;
  tanY : Q
}.

(** Modelled from the spec: the NDC raycast is "given camera + projection +
    (x,y) in [-1,1], produce a world-space ray".  The ray through the NDC
    point (x, y) leaves [eye] in the direction
    [forward + x tanX right + y tanY up]. *)
Definition rayDirection (c : PerspectiveCamera) (ndcX ndcY : Q) : Vector3 :=
  addVectors (forward c)
             (addVectors (multiplyScalar (right c) (ndcX * tanX c))
                         (multiplyScalar (up c) (ndcY * tanY c))).

(** Modelled from the spec: the NDC raycast is to "compute its intersection
    with the active ground surface", here the sphere "centered at the origin
    with radius equal to the planetary equatorial radius", and it "returns
    absent if no intersection".  The ray [eye + t d], [0 <= t], meets the
    sphere of radius [r] around the origin when [a t^2 + 2 b t + k = 0] has
    a root [t >= 0], where [a = d.d], [b = eye.d] and [k = eye.eye - r^2]:
    the discriminant is not negative, and the greater root is not negative,
    that is [b <= 0] or [k <= 0]. *)
Definition hitsSphere (r : Q) (c : PerspectiveCamera) (ndcX ndcY : Q) : bool :=
  let d := rayDirection c ndcX ndcY in
  let a := dot d d in
  let b := dot (eye c) d in
  let k := dot (eye c) (eye c) - r * r in
  Qle_bool (a * k) (b * b) && (Qle_bool b 0 || Qle_bool k 0).

(** The axes of a camera are orthogonal. *)
Definition orthogonalAxes (c : PerspectiveCamera) : Prop :=
  dot (right c) (up c) == 0 /\ dot (right c) (forward c) == 0.

(** Modelled from the spec: "the algorithm assumes no camera roll".  Without
    roll the right axis is horizontal, that is orthogonal to the local
    vertical, which over a sphere around the origin is the direction of the
    camera's position. *)
Definition rollFree (c : PerspectiveCamera) : Prop :=
  dot (right c) (eye c) == 0.

(** The imports agree with the camera model on which NDC rays hit the
    ground sphere. *)
Definition raycastsSphere {Projection : Type}
           (X : Externals PerspectiveCamera Projection)
           (this : BoundsGenerator PerspectiveCamera Projection) : Prop :=
  forall ndcX ndcY,
    rayCastWorldCoordinates X (m_camera this) (m_projection this) ndcX ndcY
    <> None
    <-> hitsSphere (EQUATORIAL_RADIUS X) (m_camera this) ndcX ndcY = true.

End Pinhole.

(* ------------------------------------------------------------------ *)
(** ** Test doubles

    Small implementations of the imports, on which the properties are
    evaluated. *)

Module Scenario.

Definition circumference : Q := 40075016.6855784.
Definition earthRadius : Q := 6378137.

(** *** A camera that looks straight down on a flat world

    It sees the rectangle [target +- (halfWidth, halfHeight)] of the
    ground. *)
Record NadirCamera : Type := {
  target : Vector3;
  halfWidth : Q;
  halfHeight : Q
}.

Definition distanceToPoint (plane : Plane) (point : Vector3) : Q :=
  Pinhole.dot (normal plane) point + constant plane.

Definition nadirFrustum (c : NadirCamera) : Frustum :=
  {| p0 := mkPlane (vec3 1 0 0) (- (x (target c) - halfWidth c));
     p1 := mkPlane (vec3 (-1) 0 0) (x (target c) + halfWidth c);
     p2 := mkPlane (vec3 0 1 0) (- (y (target c) - halfHeight c));
     p3 := mkPlane (vec3 0 (-1) 0) (y (target c) + halfHeight c);
     p4 := mkPlane (vec3 0 0 1) 1;
     p5 := mkPlane (vec3 0 0 (-1)) 1000 |}.

Definition nadirUnproject (v : Vector3) (c : NadirCamera) : Vector3 :=
  vec3 (x (target c) + x v * halfWidth c)
       (y (target c) + y v * halfHeight c)
       (- z v).

Definition nadirProject (v : Vector3) (c : NadirCamera) : Vector3 :=
  vec3 ((x v - x (target c)) / halfWidth c)
       ((y v - y (target c)) / halfHeight c)
       (- z v).

Definition pointAt (r : Ray) (t : Q) : Vector3 :=
  addVectors (origin r) (multiplyScalar (direction r) t).

Definition rayIntersectsPlane (r : Ray) (plane : Plane) : bool :=
  let distToPoint := distanceToPoint plane (origin r) in
  Qeqb0 distToPoint
  || Qltb (Pinhole.dot (normal plane) (direction r) * distToPoint) 0.

Definition rayIntersectPlane (r : Ray) (plane : Plane) : option Vector3 :=
  let denominator := Pinhole.dot (normal plane) (direction r) in
  if Qeqb0 denominator
  then if Qeqb0 (distanceToPoint plane (origin r)) then Some (origin r) else None
  else
    let t := - distanceToPoint plane (origin r) / denominator in
    if Qltb t 0 then None else Some (pointAt r t).

Definition planeIntersectsLine (plane : Plane) (l : Line3) : bool :=
  let startSign := distanceToPoint plane (line_start l) in
  let endSign := distanceToPoint plane (line_end l) in
  (Qltb startSign 0 && Qgtb endSign 0) || (Qltb endSign 0 && Qgtb startSign 0).

Definition planeIntersectLine (plane : Plane) (l : Line3) : option Vector3 :=
  let delta := subVectors (line_end l) (line_start l) in
  let denominator := Pinhole.dot (normal plane) delta in
  if Qeqb0 denominator
  then if Qeqb0 (distanceToPoint plane (line_start l))
       then Some (line_start l) else None
  else
    let t := - distanceToPoint plane (line_start l) / denominator in
    if Qltb t 0 || Qgtb t 1 then None
    else Some (addVectors (multiplyScalar delta t) (line_start l)).

(** Unit vectors along the x axis are the only ones the scenarios
    normalize. *)
Definition normalizeAlongX (v : Vector3) : Vector3 :=
  if Qltb (x v) 0 then vec3 (-1) 0 0
  else if Qgtb (x v) 0 then vec3 1 0 0 else v.

Definition nearlyInView (v : Vector3) (c : NadirCamera) : bool :=
  let ndc := nadirProject v c in
  Qle_bool (- (1 + 0.00001)) (x ndc) && Qle_bool (x ndc) (1 + 0.00001)
  && Qle_bool (- (1 + 0.00001)) (y ndc) && Qle_bool (y ndc) (1 + 0.00001).

(** World units are read as degrees: the point (x, y, z) lies at longitude
    x, latitude y and altitude z. *)
Definition readAsDegrees (v : Vector3) : GeoCoordinates :=
  mkGeo (y v) (x v) (Some (z v)).

Definition flatWorld : Externals NadirCamera unit :=
  {| projection_type := fun _ => Planar;
     unprojectPoint := fun _ => readAsDegrees;
     worldExtent := fun _ _ _ =>
       mkBox3 (vec3 0 0 0) (vec3 circumference circumference 0);
     unproject := nadirUnproject;
     project := nadirProject;
     normalize := normalizeAlongX;
     cameraFrustum := nadirFrustum;
     containsPoint := fun f v =>
       forallb (fun plane => Qle_bool 0 (distanceToPoint plane v)) (planes f);
     Ray_intersectSphere := fun _ _ => None;
     Ray_intersectsPlane := rayIntersectsPlane;
     Ray_intersectPlane := rayIntersectPlane;
     Plane_intersectsLine := planeIntersectsLine;
     Plane_intersectLine := planeIntersectLine;
     rayCastWorldCoordinates := fun c _ ndcX ndcY =>
       Some (vec3 (x (target c) + ndcX * halfWidth c)
                  (y (target c) + ndcY * halfHeight c) 0);
     closeToFrustum := nearlyInView;
     EQUATORIAL_RADIUS := earthRadius;
     EQUATORIAL_CIRCUMFERENCE := circumference;
     sortCCW := fun l => l;
     isProduction := false |}.

(** A street-level view in the middle of the map. *)
Definition streetView : BoundsGenerator NadirCamera unit :=
  {| m_camera := {| target := vec3 20000000 20000000 0;
                    halfWidth := 1000; halfHeight := 1000 |};
     m_projection := tt;
     tileWrappingEnabled := false |}.

(** The whole world, seen from far above its centre. *)
Definition worldView : BoundsGenerator NadirCamera unit :=
  {| m_camera := {| target := vec3 20000000 20000000 0;
                    halfWidth := 50000000; halfHeight := 50000000 |};
     m_projection := tt;
     tileWrappingEnabled := false |}.

(** A view across the south edge of a wrapped world. *)
Definition southEdgeView : BoundsGenerator NadirCamera unit :=
  {| m_camera := {| target := vec3 20000000 0 0;
                    halfWidth := 1000; halfHeight := 1000 |};
     m_projection := tt;
     tileWrappingEnabled := true |}.

(** *** A globe whose camera is the table of its raycasts

    World points carry their geographic coordinates: (x, y, z) lies at
    longitude x, latitude y, altitude z. *)
Definition RaycastTable : Type := Q -> Q -> option Vector3.

Definition globe : Externals RaycastTable unit :=
  {| projection_type := fun _ => Spherical;
     unprojectPoint := fun _ => readAsDegrees;
     worldExtent := fun _ _ _ => mkBox3 (vec3 0 0 0) (vec3 0 0 0);
     unproject := fun v _ => v;
     project := fun v _ => v;
     normalize := fun v => v;
     cameraFrustum := fun _ =>
       let p := mkPlane (vec3 0 0 1) 0 in mkFrustum p p p p p p;
     containsPoint := fun _ _ => false;
     Ray_intersectSphere := fun _ _ => None;
     Ray_intersectsPlane := fun _ _ => false;
     Ray_intersectPlane := fun _ _ => None;
     Plane_intersectsLine := fun _ _ => false;
     Plane_intersectLine := fun _ _ => None;
     rayCastWorldCoordinates := fun c _ ndcX ndcY => c ndcX ndcY;
     closeToFrustum := fun _ _ => false;
     EQUATORIAL_RADIUS := earthRadius;
     EQUATORIAL_CIRCUMFERENCE := circumference;
     sortCCW := fun l => l;
     isProduction := false |}.

(** A camera above (latitude 0, longitude 180): the screen spans five
    degrees to each side, so its right half lies beyond the antimeridian,
    at negative longitudes. *)
Definition wrapLongitude (l : Q) : Q := if Qgtb l 180 then l - 360 else l.

Definition antimeridianCamera : RaycastTable :=
  fun ndcX ndcY => Some (vec3 (wrapLongitude (180 + 5 * ndcX)) (5 * ndcY) 0).

Definition antimeridianView : BoundsGenerator RaycastTable unit :=
  {| m_camera := antimeridianCamera; m_projection := tt;
     tileWrappingEnabled := false |}.

(** A camera above (latitude 0, longitude 0). *)
Definition greenwichCamera : RaycastTable :=
  fun ndcX ndcY => Some (vec3 (5 * ndcX) (5 * ndcY) 0).

Definition greenwichView : BoundsGenerator RaycastTable unit :=
  {| m_camera := greenwichCamera; m_projection := tt;
     tileWrappingEnabled := false |}.

(** A camera that looks past the globe: no ray through the screen meets
    the ground. *)
Definition skyView : BoundsGenerator RaycastTable unit :=
  {| m_camera := fun _ _ => None; m_projection := tt;
     tileWrappingEnabled := false |}.

Definition at_longitude (l : Q) : GeoCoordinates := mkGeo 0 l (Some 0).

(** *** A pinhole camera above the globe, tilted towards the horizon *)
Definition tiltedCamera : Pinhole.PerspectiveCamera :=
  {| Pinhole.eye := vec3 0 0 7000000;
     Pinhole.right := vec3 1 0 0;
     Pinhole.up := vec3 0 (3 # 5) (4 # 5);
     Pinhole.forward := vec3 0 (4 # 5) (- (3 # 5));
     Pinhole.tanX := 1 # 2;
     Pinhole.tanY := 1 # 2 |}.

Definition tiltedGlobe : Externals Pinhole.PerspectiveCamera unit :=
  {| projection_type := fun _ => Spherical;
     unprojectPoint := fun _ => readAsDegrees;
     worldExtent := fun _ _ _ => mkBox3 (vec3 0 0 0) (vec3 0 0 0);
     unproject := fun v _ => v;
     project := fun v _ => v;
     normalize := fun v => v;
     cameraFrustum := fun _ =>
       let p := mkPlane (vec3 0 0 1) 0 in mkFrustum p p p p p p;
     containsPoint := fun _ _ => false;
     Ray_intersectSphere := fun _ _ => None;
     Ray_intersectsPlane := fun _ _ => false;
     Ray_intersectPlane := fun _ _ => None;
     Plane_intersectsLine := fun _ _ => false;
     Plane_intersectLine := fun _ _ => None;
     rayCastWorldCoordinates := fun c _ ndcX ndcY =>
       if Pinhole.hitsSphere earthRadius c ndcX ndcY
       then Some (vec3 ndcX ndcY 0) else None;
     closeToFrustum := fun _ _ => false;
     EQUATORIAL_RADIUS := earthRadius;
     EQUATORIAL_CIRCUMFERENCE := circumference;
     sortCCW := fun l => l;
     isProduction := false |}.

Definition tiltedView : BoundsGenerator Pinhole.PerspectiveCamera unit :=
  {| m_camera := tiltedCamera; m_projection := tt;
     tileWrappingEnabled := false |}.

End Scenario.

(* ------------------------------------------------------------------ *)
(** ** Further readings of the code *)

(** The generator after the assignment [this.tileWrappingEnabled = enabled]. *)
Definition withWrapping {Camera Projection : Type}
           (this : BoundsGenerator Camera Projection) (enabled : bool)
  : BoundsGenerator Camera Projection :=
  {| m_camera := m_camera this;
     m_projection := m_projection this;
     tileWrappingEnabled := enabled |}.

Section FarPlane.

Context {Camera Projection : Type}.
Variable X : Externals Camera Projection.
Variable this : BoundsGenerator Camera Projection.

(** What one ray adds to the polygon: the geographic point where it meets the
    ground sphere, if it does. *)
Definition sphereProbe (ray : Ray) : list GeoCoordinates :=
  match Ray_intersectSphere X ray (m_groundSphere X) with
  | Some intersection => [unprojectPoint X (m_projection this) intersection]
  | None => []
  end.

(** What one side of the far plane adds: the probes of its two rays, [a] and
    [b] being the world points of the side's two NDC corners. *)
Definition farPlaneSidePoints (side : FarPlaneSide) : list GeoCoordinates :=
  let a := unproject X (fst (farPlaneSideCorners side)) (m_camera this) in
  let b := unproject X (snd (farPlaneSideCorners side)) (m_camera this) in
  sphereProbe (mkRay a (subVectors b a))
  ++ sphereProbe (mkRay (subVectors b a) (subVectors a (subVectors b a))).

End FarPlane.

(** [out] is [coords] followed by at most [n] more points. *)
Definition appendsAtMost (n : nat) (coords out : list GeoCoordinates) : Prop :=
  exists added, out = coords ++ added /\ (length added <= n)%nat.

Module Horizon.

(** A camera over the flat world whose far plane crosses the ground in the
    middle of the screen: the far point of the NDC point (x, y) lies at
    height y. *)
Definition tiltedUnproject (v : Vector3) (c : Scenario.NadirCamera) : Vector3 :=
  vec3 (x (Scenario.target c) + x v * Scenario.halfWidth c)
       (y (Scenario.target c) + y v * Scenario.halfHeight c)
       (y v).

Definition horizonWorld : Externals Scenario.NadirCamera unit :=
  {| projection_type := projection_type Scenario.flatWorld;
     unprojectPoint := unprojectPoint Scenario.flatWorld;
     worldExtent := worldExtent Scenario.flatWorld;
     unproject := tiltedUnproject;
     project := project Scenario.flatWorld;
     normalize := normalize Scenario.flatWorld;
     cameraFrustum := cameraFrustum Scenario.flatWorld;
     containsPoint := containsPoint Scenario.flatWorld;
     Ray_intersectSphere := Ray_intersectSphere Scenario.flatWorld;
     Ray_intersectsPlane := Ray_intersectsPlane Scenario.flatWorld;
     Ray_intersectPlane := Ray_intersectPlane Scenario.flatWorld;
     Plane_intersectsLine := Plane_intersectsLine Scenario.flatWorld;
     Plane_intersectLine := Plane_intersectLine Scenario.flatWorld;
     rayCastWorldCoordinates := rayCastWorldCoordinates Scenario.flatWorld;
     closeToFrustum := closeToFrustum Scenario.flatWorld;
     EQUATORIAL_RADIUS := EQUATORIAL_RADIUS Scenario.flatWorld;
     EQUATORIAL_CIRCUMFERENCE := EQUATORIAL_CIRCUMFERENCE Scenario.flatWorld;
     sortCCW := sortCCW Scenario.flatWorld;
     isProduction := isProduction Scenario.flatWorld |}.

End Horizon.

Module Away.

(** Whether the ray [origin + t direction], [0 <= t], meets the sphere: the
    discriminant test of [Pinhole.hitsSphere], for any ray and sphere. *)
Definition rayHitsSphere (ray : Ray) (sphere : Sphere) : bool :=
  let o := subVectors (origin ray) (center sphere) in
  let a := Pinhole.dot (direction ray) (direction ray) in
  let b := Pinhole.dot o (direction ray) in
  let k := Pinhole.dot o o - radius sphere * radius sphere in
  Qle_bool (a * k) (b * b) && (Qle_bool b 0 || Qle_bool k 0).

(** A camera beyond the globe that looks away from it: no ray through the
    screen meets the ground, and its far plane, a square of 200 000 km at
    1 000 000 km from the centre of the globe, is far from the ground.  A ray
    that meets the sphere is answered with its own origin, the hit point not
    being a rational in general. *)
Definition awayGlobe : Externals unit unit :=
  {| projection_type := fun _ => Spherical;
     unprojectPoint := fun _ => Scenario.readAsDegrees;
     worldExtent := fun _ _ _ => mkBox3 (vec3 0 0 0) (vec3 0 0 0);
     unproject := fun v _ =>
       vec3 (x v * 100000000) (y v * 100000000) (z v * 1000000000);
     project := fun v _ =>
       vec3 (x v / 100000000) (y v / 100000000) (z v / 1000000000);
     normalize := fun v => v;
     cameraFrustum := fun _ =>
       let p := mkPlane (vec3 0 0 1) (- (100000000)) in mkFrustum p p p p p p;
     containsPoint := fun f v =>
       forallb (fun plane => Qle_bool 0 (Scenario.distanceToPoint plane v))
               (planes f);
     Ray_intersectSphere := fun ray sphere =>
       if rayHitsSphere ray sphere then Some (origin ray) else None;
     Ray_intersectsPlane := Scenario.rayIntersectsPlane;
     Ray_intersectPlane := Scenario.rayIntersectPlane;
     Plane_intersectsLine := Scenario.planeIntersectsLine;
     Plane_intersectLine := Scenario.planeIntersectLine;
     rayCastWorldCoordinates := fun _ _ _ _ => None;
     closeToFrustum := fun _ _ => false;
     EQUATORIAL_RADIUS := Scenario.earthRadius;
     EQUATORIAL_CIRCUMFERENCE := Scenario.circumference;
     sortCCW := fun l => l;
     isProduction := false |}.

Definition awayView : BoundsGenerator unit unit :=
  {| m_camera := tt; m_projection := tt; tileWrappingEnabled := false |}.

(** A street-level view a million kilometres to the south-west of the flat
    world. *)
Definition offWorldView : BoundsGenerator Scenario.NadirCamera unit :=
  {| m_camera := {| Scenario.target := vec3 (-1000000000) (-1000000000) 0;
                    Scenario.halfWidth := 1000;
                    Scenario.halfHeight := 1000 |};
     m_projection := tt;
     tileWrappingEnabled := false |}.

End Away.

(* ------------------------------------------------------------------ *)
(** * Properties *)

(** ** Comparisons *)

Lemma Qltb_lt (a b : Q) : Qltb a b = true <-> a < b.
Proof.
  unfold Qltb. rewrite Qlt_alt. destruct (a ?= b); split; congruence.
Qed.

Lemma Qltb_ge (a b : Q) : Qltb a b = false <-> b <= a.
Proof.
  split; intro H.
  - apply Qnot_lt_le. intro L. apply Qltb_lt in L. congruence.
  - destruct (Qltb a b) eqn:E; [| reflexivity].
    apply Qltb_lt in E. exfalso. apply (Qlt_not_le _ _ E H).
Qed.

Lemma Qgtb_gt (a b : Q) : Qgtb a b = true <-> b < a.
Proof. apply Qltb_lt. Qed.

Lemma Qgtb_le (a b : Q) : Qgtb a b = false <-> a <= b.
Proof. apply Qltb_ge. Qed.

(** ** The longitude range *)

Section LongitudeRange.

Let step (range : number * number) (geoCoords : GeoCoordinates) :=
  (Math_min (fst range) (longitude geoCoords),
   Math_max (snd range) (longitude geoCoords)).

Lemma min_step_nonneg (m : number) (q : Q) :
  ge (Math_min m q) 0 = true <-> ge m 0 = true /\ 0 <= q.
Proof.
  destruct m as [| | p |]; simpl.
  - split; [discriminate | intros [H _]; discriminate].
  - split; [discriminate | intros [H _]; discriminate].
  - destruct (Qltb q p) eqn:E; simpl; rewrite !negb_true_iff, !Qltb_ge;
      [apply Qltb_lt in E | apply Qltb_ge in E]; split.
    + intro H; split; [apply Qle_trans with q; [exact H | apply Qlt_le_weak, E] | exact H].
    + intros [_ H]; exact H.
    + intro H; split; [exact H | apply Qle_trans with p; assumption].
    + intros [H _]; exact H.
  - rewrite negb_true_iff, Qltb_ge. split; [intro H; split; [reflexivity | exact H] | intros [_ H]; exact H].
Qed.

Lemma max_step_neg (m : number) (q : Q) :
  lt (Math_max m q) 0 = true <-> lt m 0 = true /\ q < 0.
Proof.
  destruct m as [| | p |]; simpl.
  - split; [discriminate | intros [H _]; discriminate].
  - rewrite Qltb_lt. split; [intro H; split; [reflexivity | exact H] | intros [_ H]; exact H].
  - destruct (Qltb p q) eqn:E; simpl; rewrite !Qltb_lt;
      [apply Qltb_lt in E | apply Qltb_ge in E]; split.
    + intro H; split; [apply Qlt_trans with q; assumption | exact H].
    + intros [_ H]; exact H.
    + intro H; split; [exact H | apply Qle_lt_trans with p; assumption].
    + intros [H _]; exact H.
  - split; [discriminate | intros [H _]; discriminate].
Qed.

Lemma range_loop_min_nonneg (coords : list GeoCoordinates) (mn mx : number) :
  ge (fst (fold_left step coords (mn, mx))) 0 = true
  <-> ge mn 0 = true /\ allNonNegative coords.
Proof.
  revert mn mx. induction coords as [| c coords IH]; intros mn mx.
  - simpl. split; [intro H; split; [exact H | constructor] | intros [H _]; exact H].
  - change (fold_left step (c :: coords) (mn, mx))
      with (fold_left step coords
              (Math_min mn (longitude c), Math_max mx (longitude c))).
    rewrite IH, min_step_nonneg. unfold allNonNegative. split.
    + intros [[H1 H2] H3]. split; [exact H1 | constructor; assumption].
    + intros [H1 H2]. inversion H2; subst. repeat split; assumption.
Qed.

Lemma range_loop_max_neg (coords : list GeoCoordinates) (mn mx : number) :
  lt (snd (fold_left step coords (mn, mx))) 0 = true
  <-> lt mx 0 = true /\ allNegative coords.
Proof.
  revert mn mx. induction coords as [| c coords IH]; intros mn mx.
  - simpl. split; [intro H; split; [exact H | constructor] | intros [H _]; exact H].
  - change (fold_left step (c :: coords) (mn, mx))
      with (fold_left step coords
              (Math_min mn (longitude c), Math_max mx (longitude c))).
    rewrite IH, max_step_neg. unfold allNegative. split.
    + intros [[H1 H2] H3]. split; [exact H1 | constructor; assumption].
    + intros [H1 H2]. inversion H2; subst. repeat split; assumption.
Qed.

(** From a finite pair on, the loop keeps a finite pair, made of the least
    and of the greatest value met. *)
Lemma range_loop_finite (coords : list GeoCoordinates) (a b : Q) :
  exists lo hi,
    fold_left step coords (Finite a, Finite b) = (Finite lo, Finite hi)
    /\ In lo (a :: map longitude coords)
    /\ In hi (b :: map longitude coords)
    /\ lo <= a /\ b <= hi
    /\ Forall (fun c => lo <= longitude c /\ longitude c <= hi) coords.
Proof.
  revert a b. induction coords as [| c coords IH]; intros a b.
  - exists a, b. simpl. repeat split; auto using Qle_refl.
  - change (fold_left step (c :: coords) (Finite a, Finite b))
      with (fold_left step coords
              (Math_min (Finite a) (longitude c),
               Math_max (Finite b) (longitude c))).
    set (a' := if Qltb (longitude c) a then longitude c else a).
    set (b' := if Qltb b (longitude c) then longitude c else b).
    assert (Ea : Math_min (Finite a) (longitude c) = Finite a')
      by (unfold a'; simpl; destruct (Qltb (longitude c) a); reflexivity).
    assert (Eb : Math_max (Finite b) (longitude c) = Finite b')
      by (unfold b'; simpl; destruct (Qltb b (longitude c)); reflexivity).
    rewrite Ea, Eb.
    destruct (IH a' b') as (lo & hi & E & Ilo & Ihi & Hlo & Hhi & Hall).
    assert (Ha : a' <= a /\ a' <= longitude c /\ In a' [a; longitude c]).
    { unfold a'. destruct (Qltb (longitude c) a) eqn:L.
      - apply Qltb_lt in L. repeat split; simpl; auto using Qle_refl, Qlt_le_weak.
      - apply Qltb_ge in L. repeat split; simpl; auto using Qle_refl. }
    assert (Hb : b <= b' /\ longitude c <= b' /\ In b' [b; longitude c]).
    { unfold b'. destruct (Qltb b (longitude c)) eqn:L.
      - apply Qltb_lt in L. repeat split; simpl; auto using Qle_refl, Qlt_le_weak.
      - apply Qltb_ge in L. repeat split; simpl; auto using Qle_refl. }
    destruct Ha as (Ha1 & Ha2 & Ha3). destruct Hb as (Hb1 & Hb2 & Hb3).
    exists lo, hi. split; [exact E |]. repeat split.
    + destruct Ilo as [Ilo | Ilo]; [| simpl; auto].
      subst lo. destruct Ha3 as [Ha3 | [Ha3 | []]]; simpl; auto.
    + destruct Ihi as [Ihi | Ihi]; [| simpl; auto].
      subst hi. destruct Hb3 as [Hb3 | [Hb3 | []]]; simpl; auto.
    + apply Qle_trans with a'; assumption.
    + apply Qle_trans with b'; assumption.
    + constructor; [| exact Hall]. split.
      * apply Qle_trans with a'; assumption.
      * apply Qle_trans with b'; assumption.
Qed.

End LongitudeRange.

(** ** normalizeCoordinates *)

Section Normalization.

Context {Camera Projection : Type}.
Variable X : Externals Camera Projection.
Variable this : BoundsGenerator Camera Projection.

Lemma longitudeRange_min_nonneg (coords : list GeoCoordinates) :
  ge (fst (longitudeRange coords)) 0 = true <-> allNonNegative coords.
Proof.
  unfold longitudeRange. rewrite range_loop_min_nonneg. simpl. tauto.
Qed.

Lemma longitudeRange_max_neg (coords : list GeoCoordinates) :
  lt (snd (longitudeRange coords)) 0 = true <-> allNegative coords.
Proof.
  unfold longitudeRange. rewrite range_loop_max_neg. simpl. tauto.
Qed.

Lemma longitudeRange_nonempty (c : GeoCoordinates) (coords : list GeoCoordinates) :
  exists lo hi,
    longitudeRange (c :: coords) = (Finite lo, Finite hi)
    /\ longitudeExtrema (c :: coords) lo hi.
Proof.
  unfold longitudeRange. simpl.
  destruct (range_loop_finite coords (longitude c) (longitude c))
    as (lo & hi & E & Ilo & Ihi & Hlo & Hhi & Hall).
  exists lo, hi. split; [exact E |].
  unfold longitudeExtrema. simpl. repeat split; auto.
Qed.

(** The guard of the early return holds exactly of the lists whose
    longitudes are all non-negative or all negative. *)
Lemma early_return_iff (coords : list GeoCoordinates) :
  ge (fst (longitudeRange coords)) 0 || lt (snd (longitudeRange coords)) 0 = true
  <-> allNonNegative coords \/ allNegative coords.
Proof.
  rewrite orb_true_iff, longitudeRange_min_nonneg, longitudeRange_max_neg.
  tauto.
Qed.

Lemma normalizeCoordinates_early (coords : list GeoCoordinates) :
  allNonNegative coords \/ allNegative coords ->
  normalizeCoordinates X this coords = coords.
Proof.
  intro H. apply early_return_iff in H. unfold normalizeCoordinates.
  destruct (longitudeRange coords) as [mn mx]. simpl in H. rewrite H.
  reflexivity.
Qed.

Lemma normalizeCoordinates_late (coords : list GeoCoordinates) :
  ~ (allNonNegative coords \/ allNegative coords) ->
  normalizeCoordinates X this coords
  = match rayCastWorldCoordinates X (m_camera this) (m_projection this) 0 0 with
    | Some target =>
        if Qgtb (longitude (unprojectPoint X (m_projection this) target)) (-90)
           && Qltb (longitude (unprojectPoint X (m_projection this) target)) 90
        then coords
        else shiftNegativeLongitudes coords
    | None =>
        if lt (sub (snd (longitudeRange coords)) (fst (longitudeRange coords)))
              (sub (add 360 (fst (longitudeRange coords)))
                   (snd (longitudeRange coords)))
        then coords
        else shiftNegativeLongitudes coords
    end.
Proof.
  intro H. rewrite <- early_return_iff in H. unfold normalizeCoordinates.
  destruct (longitudeRange coords) as [mn mx]. simpl in *.
  destruct (ge mn 0 || lt mx 0); [congruence | reflexivity].
Qed.


Lemma normalizeCoordinates_length (coords : list GeoCoordinates) :
  length (normalizeCoordinates X this coords) = length coords.
Proof.
  unfold normalizeCoordinates, shiftNegativeLongitudes.
  destruct (longitudeRange coords) as [mn mx].
  repeat match goal with
         | |- context [if ?b then _ else _] => destruct b
         | |- context [match ?o with Some _ => _ | None => _ end] => destruct o
         end; rewrite ?length_map; reflexivity.
Qed.


End Normalization.


(** C4 (as amended).  The antimeridian pass of the spherical algorithm:
    a list whose longitudes are all non-negative or all negative is left as
    it is; for any other list, when the raycast through the NDC origin finds
    the camera's look-at point, the list is left as it is if the longitude of
    that point lies strictly between -90 and 90 degrees, and otherwise every
    negative longitude is increased by 360 degrees. *)
Theorem normalizeCoordinates_cases
        {Camera Projection : Type} (X : Externals Camera Projection)
        (this : BoundsGenerator Camera Projection)
        (coords : list GeoCoordinates) :
  (allNonNegative coords \/ allNegative coords ->
   normalizeCoordinates X this coords = coords)
  /\ (~ (allNonNegative coords \/ allNegative coords) ->
      forall target,
        rayCastWorldCoordinates X (m_camera this) (m_projection this) 0 0
        = Some target ->
        let targetLongitude :=
          longitude (unprojectPoint X (m_projection this) target) in
        (-90 < targetLongitude /\ targetLongitude < 90 ->
         normalizeCoordinates X this coords = coords)
        /\ (~ (-90 < targetLongitude /\ targetLongitude < 90) ->
            normalizeCoordinates X this coords
            = map (fun c => if Qltb (longitude c) 0
                            then set_longitude c (360 + longitude c) else c)
                  coords)).
Proof.
  split; [apply normalizeCoordinates_early |].
  intros Hlate target Htarget targetLongitude.
  rewrite (normalizeCoordinates_late X this Hlate), Htarget.
  fold targetLongitude. split.
  - intros [H1 H2]. apply Qgtb_gt in H1. apply Qltb_lt in H2.
    rewrite H1, H2. reflexivity.
  - intro H.
    destruct (Qgtb targetLongitude (-90)) eqn:E1;
      destruct (Qltb targetLongitude 90) eqn:E2; try reflexivity.
    exfalso. apply H. split; [apply Qgtb_gt, E1 | apply Qltb_lt, E2].
Qed.

(** C4, witness: the four cases on the globe's test double. *)
Lemma normalizeCoordinates_cases_witness :
  normalizeCoordinates Scenario.globe Scenario.greenwichView
    [Scenario.at_longitude 3; Scenario.at_longitude 7]
  = [Scenario.at_longitude 3; Scenario.at_longitude 7]
  /\ normalizeCoordinates Scenario.globe Scenario.greenwichView
       [Scenario.at_longitude (-3); Scenario.at_longitude 7]
     = [Scenario.at_longitude (-3); Scenario.at_longitude 7]
  /\ normalizeCoordinates Scenario.globe Scenario.antimeridianView
       [Scenario.at_longitude (-175); Scenario.at_longitude 175]
     = [set_longitude (Scenario.at_longitude (-175)) (360 + -175);
        Scenario.at_longitude 175].
Proof.
  assert (Hmixed : forall a b, a < 0 -> 0 <= b ->
            ~ (allNonNegative [Scenario.at_longitude a; Scenario.at_longitude b]
               \/ allNegative [Scenario.at_longitude a; Scenario.at_longitude b])).
  { intros a b Ha Hb [H | H].
    - inversion H as [| ? ? H1 _]; subst. simpl in H1. lra.
    - inversion H as [| ? ? _ H2]; subst.
      inversion H2 as [| ? ? H3 _]; subst. simpl in H3. lra. }
  split; [| split].
  - apply (proj1 (normalizeCoordinates_cases Scenario.globe Scenario.greenwichView
                    [Scenario.at_longitude 3; Scenario.at_longitude 7])).
    left. repeat constructor; simpl; lra.
  - apply (proj2 (normalizeCoordinates_cases Scenario.globe Scenario.greenwichView
                    [Scenario.at_longitude (-3); Scenario.at_longitude 7])
                 (Hmixed (-3) 7 ltac:(lra) ltac:(lra))
                 (vec3 0 0 0) eq_refl).
    simpl. split; lra.
  - apply (proj2 (normalizeCoordinates_cases Scenario.globe Scenario.antimeridianView
                    [Scenario.at_longitude (-175); Scenario.at_longitude 175])
                 (Hmixed (-175) 175 ltac:(lra) ltac:(lra))
                 (vec3 180 0 0) eq_refl).
    simpl. intros [_ H]. lra.
Defined.

(** C4, as first stated, fails where the raycast through the NDC origin
    misses the ground: the longitudes -10 and 10 are neither all non-negative
    nor all negative, there is no look-at point whose longitude could lie
    between -90 and 90 degrees, and still no longitude is shifted. *)
Lemma normalizeCoordinates_not_shifted_without_target :
  let coords := [Scenario.at_longitude (-10); Scenario.at_longitude 10] in
  ~ (allNonNegative coords \/ allNegative coords)
  /\ rayCastWorldCoordinates Scenario.globe (m_camera Scenario.skyView)
       (m_projection Scenario.skyView) 0 0 = None
  /\ normalizeCoordinates Scenario.globe Scenario.skyView coords = coords
  /\ normalizeCoordinates Scenario.globe Scenario.skyView coords
     <> map (fun c => if Qltb (longitude c) 0
                      then set_longitude c (360 + longitude c) else c)
            coords.
Proof.
  cbv zeta. split; [| split; [| split]].
  - intros [H | H].
    + inversion H as [| ? ? H1 _]; subst. simpl in H1. lra.
    + inversion H as [| ? ? _ H2]; subst.
      inversion H2 as [| ? ? H3 _]; subst. simpl in H3. lra.
  - reflexivity.
  - reflexivity.
  - intro H. vm_compute in H. discriminate H.
Qed.



(** ** Validation of a hit point *)

(** C5.  A world-space point passes [isInVisibleMap] exactly when: under a
    planar projection, its y lies between 0 and the equatorial circumference
    and, if tile wrapping is disabled, so does its x; under a spherical
    projection, always. *)
Theorem isInVisibleMap_iff
        {Camera Projection : Type} (X : Externals Camera Projection)
        (this : BoundsGenerator Camera Projection) (point : Vector3) :
  isInVisibleMap X this point = true
  <-> match projection_type X (m_projection this) with
      | Planar =>
          (0 <= y point /\ y point <= EQUATORIAL_CIRCUMFERENCE X)
          /\ (tileWrappingEnabled this = false ->
              0 <= x point /\ x point <= EQUATORIAL_CIRCUMFERENCE X)
      | Spherical => True
      end.
Proof.
  unfold isInVisibleMap.
  destruct (projection_type X (m_projection this)); [| tauto].
  destruct (Qltb (y point) 0) eqn:Y0;
    destruct (Qgtb (y point) (EQUATORIAL_CIRCUMFERENCE X)) eqn:Y1;
    destruct (tileWrappingEnabled this);
    destruct (Qltb (x point) 0) eqn:X0;
    destruct (Qgtb (x point) (EQUATORIAL_CIRCUMFERENCE X)) eqn:X1;
    simpl;
    repeat match goal with
           | H : Qltb _ _ = true |- _ => apply Qltb_lt in H
           | H : Qltb _ _ = false |- _ => apply Qltb_ge in H
           | H : Qgtb _ _ = true |- _ => apply Qgtb_gt in H
           | H : Qgtb _ _ = false |- _ => apply Qgtb_le in H
           end;
    split;
    try discriminate; try reflexivity;
    try (intros [[? ?] Hx]; try (specialize (Hx eq_refl); destruct Hx); lra);
    try (intros _; repeat split; try assumption; intro; try discriminate;
         split; assumption).
Qed.

(** ** The subdivision step *)

(** C9.  [subdivideSides] returns the list it is given. *)
Theorem subdivideSides_identity (coords : list GeoCoordinates) :
  subdivideSides coords = coords.
Proof. reflexivity. Qed.

(** ** The static elevation range source *)

(** C10.  Whatever the tile key, [getElevationRange] returns the two stored
    elevations with the status [FinalPrecise]; [ready] is true; [connect]
    returns a promise that is already fulfilled. *)
Theorem static_elevation_range
        {TilingScheme TileKey : Type}
        (source : ElevationRangeSource.StaticElevationRangeSource TilingScheme)
        (tileKey otherKey : TileKey) :
  ElevationRangeSource.getElevationRange source tileKey
  = {| ElevationRangeSource.minElevation :=
         ElevationRangeSource.m_minElevation source;
       ElevationRangeSource.maxElevation :=
         ElevationRangeSource.m_maxElevation source;
       ElevationRangeSource.calculationStatus :=
         Some ElevationRangeSource.FinalPrecise |}
  /\ ElevationRangeSource.getElevationRange source tileKey
     = ElevationRangeSource.getElevationRange source otherKey
  /\ ElevationRangeSource.ready source = true
  /\ ElevationRangeSource.connect source = ElevationRangeSource.Fulfilled tt.
Proof. repeat split. Qed.

(** ** Arrays that grow by [push] *)

Lemma fold_left_push {A B : Type} (step : list B -> A -> list B)
      (pushed : A -> list B) :
  (forall acc a, step acc a = acc ++ pushed a) ->
  forall l acc, fold_left step l acc = acc ++ flat_map pushed l.
Proof.
  intros Hstep l. induction l as [| a l IH]; intro acc; simpl.
  - symmetry. apply app_nil_r.
  - rewrite IH, Hstep, <- app_assoc. reflexivity.
Qed.

Section Accumulation.

Context {Camera Projection : Type}.
Variable X : Externals Camera Projection.
Variable this : BoundsGenerator Camera Projection.

Lemma addNDCRayIntersection_push (ndcPoints : list (Q * Q))
      (geoPolygon : list GeoCoordinates) :
  addNDCRayIntersection X this ndcPoints geoPolygon
  = geoPolygon
      ++ flat_map
           (fun corner =>
              match rayCastWorldCoordinates X (m_camera this)
                      (m_projection this) (fst corner) (snd corner) with
              | Some hit =>
                  if isInVisibleMap X this hit
                  then [unprojectPoint X (m_projection this) hit] else []
              | None => []
              end)
           ndcPoints.
Proof.
  unfold addNDCRayIntersection. apply fold_left_push. intros acc corner.
  unfold validateAndAddToGeoPolygon.
  destruct (rayCastWorldCoordinates X (m_camera this) (m_projection this)
              (fst corner) (snd corner)) as [hit |];
    [destruct (isInVisibleMap X this hit) |];
    rewrite ?app_nil_r; reflexivity.
Qed.

Lemma addCanvasCornerIntersection_corners :
  addCanvasCornerIntersection X this [] false = validCornerHits X this.
Proof.
  unfold addCanvasCornerIntersection. rewrite addNDCRayIntersection_push.
  reflexivity.
Qed.

Lemma addPointInFrustum_corners (frustum : Frustum)
      (worldCorners : TileCorners) (coords : list GeoCoordinates) :
  fold_left (fun coords corner => addPointInFrustum X this corner frustum coords)
            [ne worldCorners; nw worldCorners; se worldCorners; sw worldCorners]
            coords
  = coords ++ containedWorldCorners X this frustum worldCorners.
Proof.
  unfold containedWorldCorners. apply fold_left_push. intros acc corner.
  unfold addPointInFrustum. destruct (containsPoint X frustum corner);
    rewrite ?app_nil_r; reflexivity.
Qed.

Lemma addFrustumIntersection_push (edge : Edge) (frustum : Frustum)
      (coords : list GeoCoordinates) :
  addFrustumIntersection X this edge frustum coords
  = coords ++ confirmedIntersections X this frustum edge.
Proof.
  unfold addFrustumIntersection, confirmedIntersections.
  apply fold_left_push. intros acc plane.
  destruct (edgePlaneIntersection X edge plane) as [i |];
    [destruct (closeToFrustum X i (m_camera this)) |];
    rewrite ?app_nil_r; reflexivity.
Qed.

Lemma addFrustumIntersection_edges (edges : list Edge) (frustum : Frustum)
      (coords : list GeoCoordinates) :
  fold_left (fun coords edge => addFrustumIntersection X this edge frustum coords)
            edges coords
  = coords ++ flat_map (confirmedIntersections X this frustum) edges.
Proof.
  apply fold_left_push. intros acc edge. apply addFrustumIntersection_push.
Qed.

(** The planar algorithm hands [createPolygon] the boundary points of the
    specification. *)
Lemma generateOnPlane_boundaryPoints :
  generateOnPlane X this
  = (points <- planeBoundaryPoints X this ;;
     Normal (createPolygon X this points true false)).
Proof.
  unfold generateOnPlane, planeBoundaryPoints.
  rewrite addCanvasCornerIntersection_corners.
  destruct (length (validCornerHits X this) =? 4)%nat; [reflexivity |].
  destruct (getWorldConers X (m_projection this)) as [worldCorners |];
    [| reflexivity].
  cbv zeta. unfold worldBoundaryPoints.
  destruct (tileWrappingEnabled this); cbn [negb bind].
  - rewrite addFrustumIntersection_edges. reflexivity.
  - rewrite addPointInFrustum_corners, addFrustumIntersection_edges,
      <- app_assoc.
    reflexivity.
Qed.

Lemma assert_Spherical :
  projection_type X (m_projection this) = Spherical ->
  assert X (ProjectionType_eqb (projection_type X (m_projection this)) Spherical)
  = Normal tt.
Proof.
  intro H. unfold assert. rewrite H. simpl.
  destruct (isProduction X); reflexivity.
Qed.

Lemma generateOnSphere_boundaryPoints :
  projection_type X (m_projection this) = Spherical ->
  generateOnSphere X this
  = (found <- findBoundsIntersectionsOnSphere X this ;;
     Normal (createPolygon X this (subdivideSides found) true true)).
Proof.
  intro H. unfold generateOnSphere. rewrite (assert_Spherical H). reflexivity.
Qed.

Lemma generate_boundaryPoints :
  generate X this
  = (points <- boundaryPoints X this ;;
     Normal (createPolygon X this points true
               (ProjectionType_eqb (projection_type X (m_projection this))
                                   Spherical))).
Proof.
  unfold generate, boundaryPoints.
  destruct (projection_type X (m_projection this)) eqn:T.
  - apply generateOnPlane_boundaryPoints.
  - rewrite (generateOnSphere_boundaryPoints T).
    destruct (findBoundsIntersectionsOnSphere X this); reflexivity.
Qed.


Lemma createPolygon_Some (points : list GeoCoordinates) (sort normalize : bool)
      (polygon : GeoPolygon) :
  createPolygon X this points sort normalize = Some polygon ->
  (3 <= length points)%nat
  /\ polygon
     = new_GeoPolygon X
         (if normalize then normalizeCoordinates X this points else points)
         sort.
Proof.
  unfold createPolygon.
  destruct (Nat.ltb_spec 2 (length points)) as [Hlen | Hlen]; [| discriminate].
  intro E. injection E as <-. split; [lia | reflexivity].
Qed.

End Accumulation.

(** ** generate *)



Section FourCorners.

Context {Camera Projection : Type}.
Variable X : Externals Camera Projection.
Variable this : BoundsGenerator Camera Projection.
Variables h1 h2 h3 h4 : Vector3.

Let cast := rayCastWorldCoordinates X (m_camera this) (m_projection this).

Hypothesis lowerLeft : cast (-1) (-1) = Some h1.
Hypothesis upperLeft : cast (-1) 1 = Some h2.
Hypothesis upperRight : cast 1 1 = Some h3.
Hypothesis lowerRight : cast 1 (-1) = Some h4.

Lemma validCornerHits_all :
  isInVisibleMap X this h1 = true -> isInVisibleMap X this h2 = true ->
  isInVisibleMap X this h3 = true -> isInVisibleMap X this h4 = true ->
  validCornerHits X this
  = map (unprojectPoint X (m_projection this)) [h1; h2; h3; h4].
Proof.
  intros V1 V2 V3 V4. unfold validCornerHits, ndcCorners. simpl.
  fold cast. rewrite lowerLeft, upperLeft, upperRight, lowerRight.
  rewrite V1, V2, V3, V4. reflexivity.
Qed.

Lemma isInVisibleMap_Spherical (point : Vector3) :
  projection_type X (m_projection this) = Spherical ->
  isInVisibleMap X this point = true.
Proof. intro T. unfold isInVisibleMap. rewrite T. reflexivity. Qed.

Lemma generate_Planar_four :
  projection_type X (m_projection this) = Planar ->
  isInVisibleMap X this h1 = true -> isInVisibleMap X this h2 = true ->
  isInVisibleMap X this h3 = true -> isInVisibleMap X this h4 = true ->
  generate X this
  = Normal (Some (mkGeoPolygon
                    (sortCCW X (map (unprojectPoint X (m_projection this))
                                    [h1; h2; h3; h4])))).
Proof.
  intros T V1 V2 V3 V4. unfold generate. rewrite T.
  unfold generateOnPlane. rewrite addCanvasCornerIntersection_corners.
  rewrite (validCornerHits_all V1 V2 V3 V4). reflexivity.
Qed.

Lemma generate_Spherical_four :
  projection_type X (m_projection this) = Spherical ->
  generate X this
  = Normal (Some (mkGeoPolygon
                    (sortCCW X
                       (normalizeCoordinates X this
                          (map (unprojectPoint X (m_projection this))
                               [h1; h2; h3; h4]))))).
Proof.
  intro T. unfold generate. rewrite T.
  rewrite (generateOnSphere_boundaryPoints X this T).
  unfold findBoundsIntersectionsOnSphere.
  rewrite (assert_Spherical X this T).
  cbn [bind]. rewrite addCanvasCornerIntersection_corners.
  rewrite (validCornerHits_all
             (isInVisibleMap_Spherical h1 T) (isInVisibleMap_Spherical h2 T)
             (isInVisibleMap_Spherical h3 T) (isInVisibleMap_Spherical h4 T)).
  reflexivity.
Qed.

End FourCorners.

Lemma sameCornerView_isInVisibleMap
      {Camera Projection : Type} (X X' : Externals Camera Projection)
      (this : BoundsGenerator Camera Projection) (point : Vector3) :
  sameCornerView X X' this ->
  isInVisibleMap X' this point = isInVisibleMap X this point.
Proof.
  intros (T & _ & _ & C & _). unfold isInVisibleMap. rewrite <- T, <- C.
  reflexivity.
Qed.

Lemma sameCornerView_normalizeCoordinates
      {Camera Projection : Type} (X X' : Externals Camera Projection)
      (this : BoundsGenerator Camera Projection)
      (coords : list GeoCoordinates) :
  sameCornerView X X' this ->
  normalizeCoordinates X' this coords = normalizeCoordinates X this coords.
Proof.
  intros (_ & R & U & _ & _). unfold normalizeCoordinates.
  rewrite <- R.
  destruct (rayCastWorldCoordinates X (m_camera this) (m_projection this) 0 0);
    [rewrite <- U |]; reflexivity.
Qed.

(** C2.  Under a planar projection, when the raycasts through the four NDC
    corners (-1,-1), (-1,1), (1,1), (1,-1) all hit the ground and the four hit
    points pass validation, [generate] returns the polygon of exactly these
    four points, sorted counter-clockwise by the polygon's constructor.  The
    horizon, world-corner and frustum-edge steps are not run: the result is
    the same whatever the imports they would call. *)
Theorem generate_four_corners_on_plane
        {Camera Projection : Type} (X : Externals Camera Projection)
        (this : BoundsGenerator Camera Projection) (h1 h2 h3 h4 : Vector3) :
  projection_type X (m_projection this) = Planar ->
  rayCastWorldCoordinates X (m_camera this) (m_projection this) (-1) (-1) = Some h1 ->
  rayCastWorldCoordinates X (m_camera this) (m_projection this) (-1) 1 = Some h2 ->
  rayCastWorldCoordinates X (m_camera this) (m_projection this) 1 1 = Some h3 ->
  rayCastWorldCoordinates X (m_camera this) (m_projection this) 1 (-1) = Some h4 ->
  isInVisibleMap X this h1 = true -> isInVisibleMap X this h2 = true ->
  isInVisibleMap X this h3 = true -> isInVisibleMap X this h4 = true ->
  let corners := map (unprojectPoint X (m_projection this)) [h1; h2; h3; h4] in
  generate X this = Normal (Some (mkGeoPolygon (sortCCW X corners)))
  /\ forall X' : Externals Camera Projection,
      sameCornerView X X' this ->
      generate X' this = Normal (Some (mkGeoPolygon (sortCCW X corners))).
Proof.
  intros T R1 R2 R3 R4 V1 V2 V3 V4 corners. split.
  - apply generate_Planar_four; assumption.
  - intros X' S. pose proof S as (T' & R' & U' & _ & S').
    rewrite (generate_Planar_four X' this (h1 := h1) (h2 := h2) (h3 := h3) (h4 := h4));
      rewrite <- ?R', <- ?T', ?(sameCornerView_isInVisibleMap _ S); try assumption.
    unfold corners. simpl. rewrite <- !U', <- S'. reflexivity.
Qed.

(** C2, witness: the street-level view of the flat world. *)
Lemma generate_four_corners_on_plane_witness :
  generate Scenario.flatWorld Scenario.streetView
  = Normal (Some (mkGeoPolygon
                    [mkGeo (20000000 + -1 * 1000) (20000000 + -1 * 1000) (Some 0);
                     mkGeo (20000000 + 1 * 1000) (20000000 + -1 * 1000) (Some 0);
                     mkGeo (20000000 + 1 * 1000) (20000000 + 1 * 1000) (Some 0);
                     mkGeo (20000000 + -1 * 1000) (20000000 + 1 * 1000) (Some 0)])).
Proof.
  apply (proj1 (@generate_four_corners_on_plane _ _
                  Scenario.flatWorld Scenario.streetView _ _ _ _
                  eq_refl eq_refl eq_refl eq_refl eq_refl
                  eq_refl eq_refl eq_refl eq_refl)).
Defined.

(** C3 (as amended).  Under a spherical projection, when the raycasts through
    the four NDC corners all hit the ground sphere, [generate] returns the
    polygon of these four points after the antimeridian pass, sorted by the
    polygon's constructor: there are four vertices, the far-plane probes are
    not run (the result is the same whatever the imports they would call),
    and latitudes and altitudes are those of the hit points.  The longitudes
    are those of the hit points when these are all non-negative or all
    negative.  Otherwise the pass either leaves the four points as they are
    or replaces each point of negative longitude [l] by the point of the same
    latitude and altitude at longitude [360 + l]; it does the latter when the
    raycast through the NDC origin hits the ground at a longitude that is not
    strictly between -90 and 90 degrees. *)
Theorem generate_four_corners_on_sphere
        {Camera Projection : Type} (X : Externals Camera Projection)
        (this : BoundsGenerator Camera Projection) (h1 h2 h3 h4 : Vector3) :
  projection_type X (m_projection this) = Spherical ->
  rayCastWorldCoordinates X (m_camera this) (m_projection this) (-1) (-1) = Some h1 ->
  rayCastWorldCoordinates X (m_camera this) (m_projection this) (-1) 1 = Some h2 ->
  rayCastWorldCoordinates X (m_camera this) (m_projection this) 1 1 = Some h3 ->
  rayCastWorldCoordinates X (m_camera this) (m_projection this) 1 (-1) = Some h4 ->
  let corners := map (unprojectPoint X (m_projection this)) [h1; h2; h3; h4] in
  let normalized := normalizeCoordinates X this corners in
  let shifted :=
    map (fun c =>
           if Qltb (longitude c) 0
           then mkGeo (latitude c) (360 + longitude c) (altitude c)
           else c)
        corners in
  generate X this = Normal (Some (mkGeoPolygon (sortCCW X normalized)))
  /\ (forall X' : Externals Camera Projection,
         sameCornerView X X' this ->
         generate X' this = Normal (Some (mkGeoPolygon (sortCCW X normalized))))
  /\ length normalized = 4%nat
  /\ map latitude normalized = map latitude corners
  /\ map altitude normalized = map altitude corners
  /\ (allNonNegative corners \/ allNegative corners -> normalized = corners)
  /\ (normalized = corners \/ normalized = shifted)
  /\ (~ (allNonNegative corners \/ allNegative corners) ->
      forall target,
        rayCastWorldCoordinates X (m_camera this) (m_projection this) 0 0
        = Some target ->
        let targetLongitude :=
          longitude (unprojectPoint X (m_projection this) target) in
        (-90 < targetLongitude /\ targetLongitude < 90 ->
         normalized = corners)
        /\ (~ (-90 < targetLongitude /\ targetLongitude < 90) ->
            normalized = shifted)).
Proof.
  intros T R1 R2 R3 R4 corners normalized shifted.
  change shifted with (shiftNegativeLongitudes corners). clear shifted.
  split; [| split; [| split; [| split; [| split; [| split; [| split]]]]]].
  - apply generate_Spherical_four; assumption.
  - intros X' S. pose proof S as (T' & R' & U' & _ & S').
    rewrite (generate_Spherical_four X' this (h1 := h1) (h2 := h2) (h3 := h3) (h4 := h4));
      rewrite <- ?R', <- ?T'; try assumption.
    rewrite (sameCornerView_normalizeCoordinates _ S).
    unfold normalized, corners. simpl. rewrite <- !U', <- S'. reflexivity.
  - unfold normalized. rewrite normalizeCoordinates_length. reflexivity.
  - unfold normalized, normalizeCoordinates, shiftNegativeLongitudes.
    destruct (longitudeRange corners) as [mn mx].
    repeat match goal with
           | |- context [if ?b then _ else _] => destruct b
           | |- context [match ?o with Some _ => _ | None => _ end] => destruct o
           end; try reflexivity;
      rewrite map_map; apply map_ext; intro c;
      destruct (Qltb (longitude c) 0); reflexivity.
  - unfold normalized, normalizeCoordinates, shiftNegativeLongitudes.
    destruct (longitudeRange corners) as [mn mx].
    repeat match goal with
           | |- context [if ?b then _ else _] => destruct b
           | |- context [match ?o with Some _ => _ | None => _ end] => destruct o
           end; try reflexivity;
      rewrite map_map; apply map_ext; intro c;
      destruct (Qltb (longitude c) 0); reflexivity.
  - apply normalizeCoordinates_early.
  - unfold normalized, normalizeCoordinates.
    destruct (longitudeRange corners) as [mn mx].
    repeat match goal with
           | |- context [if ?b then _ else _] => destruct b
           | |- context [match ?o with Some _ => _ | None => _ end] => destruct o
           end; auto.
  - intros Hlate target Htarget targetLongitude. unfold normalized.
    rewrite (normalizeCoordinates_late X this Hlate), Htarget.
    fold targetLongitude. split.
    + intros [H1 H2]. apply Qgtb_gt in H1. apply Qltb_lt in H2.
      rewrite H1, H2. reflexivity.
    + intro H.
      destruct (Qgtb targetLongitude (-90)) eqn:E1;
        destruct (Qltb targetLongitude 90) eqn:E2; try reflexivity.
      exfalso. apply H. split; [apply Qgtb_gt, E1 | apply Qltb_lt, E2].
Qed.

(** C3, witness.  The camera above Greenwich gets its four corner points
    unchanged.  The camera above longitude 180 gets the longitudes 175, 175,
    185 and 185 for its corners at 175, 175, -175 and -175. *)
Lemma generate_four_corners_on_sphere_witness :
  generate Scenario.globe Scenario.greenwichView
  = Normal (Some (mkGeoPolygon
                    (normalizeCoordinates Scenario.globe Scenario.greenwichView
                       [mkGeo (5 * -1) (5 * -1) (Some 0);
                        mkGeo (5 * 1) (5 * -1) (Some 0);
                        mkGeo (5 * 1) (5 * 1) (Some 0);
                        mkGeo (5 * -1) (5 * 1) (Some 0)])))
  /\ normalizeCoordinates Scenario.globe Scenario.antimeridianView
       [mkGeo (5 * -1) (180 + 5 * -1) (Some 0);
        mkGeo (5 * 1) (180 + 5 * -1) (Some 0);
        mkGeo (5 * 1) (180 + 5 * 1 - 360) (Some 0);
        mkGeo (5 * -1) (180 + 5 * 1 - 360) (Some 0)]
     = [mkGeo (5 * -1) (180 + 5 * -1) (Some 0);
        mkGeo (5 * 1) (180 + 5 * -1) (Some 0);
        mkGeo (5 * 1) (360 + (180 + 5 * 1 - 360)) (Some 0);
        mkGeo (5 * -1) (360 + (180 + 5 * 1 - 360)) (Some 0)].
Proof.
  split.
  - apply (proj1 (@generate_four_corners_on_sphere _ _
                    Scenario.globe Scenario.greenwichView _ _ _ _
                    eq_refl eq_refl eq_refl eq_refl eq_refl)).
  - pose proof (@generate_four_corners_on_sphere _ _
                  Scenario.globe Scenario.antimeridianView _ _ _ _
                  eq_refl eq_refl eq_refl eq_refl eq_refl)
      as (_ & _ & _ & _ & _ & _ & _ & Hshift).
    refine (proj2 (Hshift _ (vec3 180 0 0) eq_refl) _).
    + intros [H | H].
      * inversion H as [| ? ? _ H2]; subst.
        inversion H2 as [| ? ? _ H3]; subst.
        inversion H3 as [| ? ? H4 _]; subst.
        vm_compute in H4. exact (H4 eq_refl).
      * inversion H as [| ? ? H1 _]; subst.
        vm_compute in H1. discriminate H1.
    + intros [_ H]. vm_compute in H. discriminate H.
Defined.

(** C3, as first stated, fails across the antimeridian.  The camera above
    longitude 180 hits the sphere through all four corners, at longitudes 175
    (left) and -175 (right).  The polygon [generate] returns has the
    longitudes 175 and 185: the hit point of the upper right corner is not
    one of its vertices, and its vertex at longitude 185 is not a hit
    point. *)
Lemma generate_on_sphere_alters_longitudes :
  projection_type Scenario.globe (m_projection Scenario.antimeridianView)
  = Spherical
  /\ validCornerHits Scenario.globe Scenario.antimeridianView
     = [mkGeo (5 * -1) (180 + 5 * -1) (Some 0);
        mkGeo (5 * 1) (180 + 5 * -1) (Some 0);
        mkGeo (5 * 1) (180 + 5 * 1 - 360) (Some 0);
        mkGeo (5 * -1) (180 + 5 * 1 - 360) (Some 0)]
  /\ exists polygon,
      generate Scenario.globe Scenario.antimeridianView = Normal (Some polygon)
      /\ map longitude (coordinates polygon)
         = [180 + 5 * -1; 180 + 5 * -1;
            360 + (180 + 5 * 1 - 360); 360 + (180 + 5 * 1 - 360)]
      /\ ~ In (mkGeo (5 * 1) (180 + 5 * 1 - 360) (Some 0)) (coordinates polygon)
      /\ ~ (forall vertex, In vertex (coordinates polygon) ->
                           In vertex (validCornerHits Scenario.globe
                                        Scenario.antimeridianView)).
Proof.
  split; [reflexivity |]. split; [reflexivity |].
  eexists. split; [reflexivity |]. split; [reflexivity |]. split.
  - simpl. intros [H | [H | [H | [H | []]]]]; discriminate H.
  - intro H.
    specialize (H (mkGeo (5 * 1) (360 + (180 + 5 * 1 - 360)) (Some 0))).
    simpl in H.
    destruct H as [H | [H | [H | [H | []]]]]; try discriminate H.
    right. right. left. reflexivity.
Qed.

(** ** The world boundary in the planar algorithm *)

Lemma containedWorldCorners_altitude
      {Camera Projection : Type} (X : Externals Camera Projection)
      (this : BoundsGenerator Camera Projection)
      (frustum : Frustum) (worldCorners : TileCorners) :
  Forall (fun c => altitude c = Some 0)
         (containedWorldCorners X this frustum worldCorners).
Proof.
  unfold containedWorldCorners. apply Forall_flat_map, Forall_forall.
  intros corner _. destruct (containsPoint X frustum corner);
    repeat constructor.
Qed.

Lemma confirmedIntersections_altitude
      {Camera Projection : Type} (X : Externals Camera Projection)
      (this : BoundsGenerator Camera Projection)
      (frustum : Frustum) (edges : list Edge) :
  Forall (fun c => altitude c = Some 0)
         (flat_map (confirmedIntersections X this frustum) edges).
Proof.
  apply Forall_flat_map, Forall_forall. intros edge _.
  unfold confirmedIntersections. apply Forall_flat_map, Forall_forall.
  intros plane _.
  destruct (edgePlaneIntersection X edge plane) as [i |];
    [destruct (closeToFrustum X i (m_camera this)) |];
    repeat constructor.
Qed.

(** C6.  In the planar algorithm, once the four corners have not all given a
    valid hit, the points added after the horizon step are:
    - with wrapping disabled, each of the four world corners NE, NW, SE, SW
      that the frustum contains, at altitude 0, and then, for each of the four
      finite world edges SW-SE, NE-NW, SE-NE, NW-SW and each of the six
      frustum planes, the intersection of the segment with the plane if
      [Plane.intersectsLine] and [Plane.intersectLine] give one and it is
      close to the frustum, at altitude 0;
    - with wrapping enabled, no world corner, and for each of four rays, from
      SE and from NE along the normalized vectors [SW - SE] and [SE - SW]
      ([directionEast] and [directionWest] of the source), and each of the
      six frustum planes, the intersection of the ray with the plane if
      [Ray.intersectsPlane] and [Ray.intersectPlane] give one and it is close
      to the frustum, at altitude 0.
    The statement is written with the imports alone: the world box, the
    frustum and its six planes, the four intersection functions,
    [closeToFrustum], [containsPoint] and [unprojectPoint]. *)
Theorem generateOnPlane_world_boundary
        {Camera Projection : Type} (X : Externals Camera Projection)
        (this : BoundsGenerator Camera Projection) :
  projection_type X (m_projection this) = Planar ->
  length (addCanvasCornerIntersection X this [] false) <> 4%nat ->
  let frustum := cameraFrustum X (m_camera this) in
  let sixPlanes :=
    [p0 frustum; p1 frustum; p2 frustum; p3 frustum; p4 frustum; p5 frustum] in
  let worldBox := worldExtent X (m_projection this) 0 0 in
  let SW := box_min worldBox in
  let SE := vec3 (x (box_max worldBox)) (y (box_min worldBox)) 0 in
  let NW := vec3 (x (box_min worldBox)) (y (box_max worldBox)) 0 in
  let NE := box_max worldBox in
  let atAltitude0 (point : Vector3) :=
    mkGeo (latitude (unprojectPoint X (m_projection this) point))
          (longitude (unprojectPoint X (m_projection this) point))
          (Some 0) in
  let confirmed (hit : option Vector3) :=
    match hit with
    | Some intersection =>
        if closeToFrustum X intersection (m_camera this)
        then [atAltitude0 intersection] else []
    | None => []
    end in
  let contained (corner : Vector3) :=
    if containsPoint X frustum corner then [atAltitude0 corner] else [] in
  let segmentHits (ends : Vector3 * Vector3) :=
    flat_map
      (fun plane =>
         confirmed
           (if Plane_intersectsLine X plane (mkLine3 (fst ends) (snd ends))
            then Plane_intersectLine X plane (mkLine3 (fst ends) (snd ends))
            else None))
      sixPlanes in
  let rayHits (ray : Vector3 * Vector3) :=
    flat_map
      (fun plane =>
         confirmed
           (if Ray_intersectsPlane X (mkRay (fst ray) (snd ray)) plane
            then Ray_intersectPlane X (mkRay (fst ray) (snd ray)) plane
            else None))
      sixPlanes in
  let directionEast :=
    normalize X (vec3 (x SW - x SE) (y SW - y SE) (z SW - z SE)) in
  let directionWest :=
    normalize X (vec3 (x SE - x SW) (y SE - y SW) (z SE - z SW)) in
  let seeded :=
    addHorizonIntersection X this
      (addCanvasCornerIntersection X this [] false) in
  (tileWrappingEnabled this = false ->
   generate X this
   = Normal
       (createPolygon X this
          (seeded
             ++ flat_map contained [NE; NW; SE; SW]
             ++ flat_map segmentHits [(SW, SE); (NE, NW); (SE, NE); (NW, SW)])
          true false))
  /\ (tileWrappingEnabled this = true ->
      generate X this
      = Normal
          (createPolygon X this
             (seeded
                ++ flat_map rayHits
                     [(SE, directionEast); (SE, directionWest);
                      (NE, directionEast); (NE, directionWest)])
             true false)).
Proof.
  intros T Hcorners frustum sixPlanes worldBox SW SE NW NE atAltitude0
         confirmed contained segmentHits rayHits directionEast directionWest
         seeded.
  rewrite addCanvasCornerIntersection_corners in Hcorners.
  set (worldCorners := {| se := SE; sw := SW; ne := NE; nw := NW |}).
  assert (Hworld : getWorldConers X (m_projection this) = Some worldCorners)
    by (unfold getWorldConers; rewrite T; reflexivity).
  assert (G : generate X this
              = Normal (createPolygon X this
                          (seeded ++ worldBoundaryPoints X this frustum worldCorners)
                          true false)).
  { unfold generate. rewrite T, generateOnPlane_boundaryPoints.
    unfold planeBoundaryPoints.
    destruct (Nat.eqb_spec (length (validCornerHits X this)) 4) as [E | _];
      [contradiction |].
    rewrite Hworld. unfold seeded.
    rewrite addCanvasCornerIntersection_corners. reflexivity. }
  split; intro W; rewrite G; unfold worldBoundaryPoints; rewrite W;
    reflexivity.
Qed.

(** C6, witness: a view of the flat world across its south edge, two
    kilometres wide.  With wrapping disabled the polygon is made of the two
    upper screen corners and of the two points where the segment SW-SE
    crosses the left and the right frustum plane; the crossings of the other
    three edges are not close to the frustum.  With wrapping enabled the same
    two points come from the ray that leaves SE along [directionEast]. *)
Lemma generateOnPlane_world_boundary_witness :
  (exists polygon,
      generate Scenario.flatWorld (withWrapping Scenario.southEdgeView false)
      = Normal (Some polygon)
      /\ map (fun c => (Qred (longitude c), Qred (latitude c), altitude c))
             (coordinates polygon)
         = [(19999000, 1000, Some 0); (20001000, 1000, Some 0);
            (19999000, 0, Some 0); (20001000, 0, Some 0)])
  /\ (exists polygon,
         generate Scenario.flatWorld Scenario.southEdgeView
         = Normal (Some polygon)
         /\ map (fun c => (Qred (longitude c), Qred (latitude c), altitude c))
                (coordinates polygon)
            = [(19999000, 1000, Some 0); (20001000, 1000, Some 0);
               (19999000, 0, Some 0); (20001000, 0, Some 0)]).
Proof.
  assert (Hoff : length (addCanvasCornerIntersection Scenario.flatWorld
                           (withWrapping Scenario.southEdgeView false) [] false)
                 <> 4%nat) by (vm_compute; discriminate).
  assert (Hon : length (addCanvasCornerIntersection Scenario.flatWorld
                          Scenario.southEdgeView [] false)
                <> 4%nat) by (vm_compute; discriminate).
  split.
  - rewrite (proj1 (@generateOnPlane_world_boundary _ _
                      Scenario.flatWorld
                      (withWrapping Scenario.southEdgeView false)
                      eq_refl Hoff)
                   eq_refl).
    eexists. split; vm_compute; reflexivity.
  - rewrite (proj2 (@generateOnPlane_world_boundary _ _
                      Scenario.flatWorld Scenario.southEdgeView
                      eq_refl Hon)
                   eq_refl).
    eexists. split; vm_compute; reflexivity.
Defined.

(** ** Corner hits of a camera without roll *)

Section NoRoll.

Import Pinhole.

Variable c : PerspectiveCamera.
Variable r : Q.
Hypothesis orthogonal : orthogonalAxes c.
Hypothesis noRoll : rollFree c.

Lemma rayDirection_square (ndcX ndcY : Q) :
  dot (rayDirection c ndcX ndcY) (rayDirection c ndcX ndcY)
  == dot (forward c) (forward c)
     + (ndcX * tanX c) * (ndcX * tanX c) * dot (right c) (right c)
     + (ndcY * tanY c) * (ndcY * tanY c) * dot (up c) (up c)
     + 2 * (ndcY * tanY c) * dot (up c) (forward c)
     + 2 * (ndcX * tanX c) * dot (right c) (forward c)
     + 2 * (ndcX * tanX c) * (ndcY * tanY c) * dot (right c) (up c).
Proof.
  unfold dot, rayDirection, addVectors, multiplyScalar. simpl. ring.
Qed.

Lemma eye_dot_rayDirection (ndcX ndcY : Q) :
  dot (eye c) (rayDirection c ndcX ndcY)
  == dot (eye c) (forward c)
     + (ndcY * tanY c) * dot (eye c) (up c)
     + (ndcX * tanX c) * dot (right c) (eye c).
Proof.
  unfold dot, rayDirection, addVectors, multiplyScalar. simpl. ring.
Qed.

Lemma rayDirection_square_mirror (ndcX ndcY : Q) :
  dot (rayDirection c (- ndcX) ndcY) (rayDirection c (- ndcX) ndcY)
  == dot (rayDirection c ndcX ndcY) (rayDirection c ndcX ndcY).
Proof.
  rewrite !rayDirection_square. destruct orthogonal as [H1 H2].
  rewrite H1, H2. ring.
Qed.

Lemma eye_dot_mirror (ndcX ndcY : Q) :
  dot (eye c) (rayDirection c (- ndcX) ndcY)
  == dot (eye c) (rayDirection c ndcX ndcY).
Proof.
  rewrite !eye_dot_rayDirection. unfold rollFree in noRoll.
  rewrite noRoll. ring.
Qed.

(** Without roll the picture of the globe is symmetric about the vertical
    axis of the screen. *)
Lemma hitsSphere_mirror (ndcX ndcY : Q) :
  hitsSphere r c (- ndcX) ndcY = hitsSphere r c ndcX ndcY.
Proof.
  unfold hitsSphere. cbv zeta.
  rewrite rayDirection_square_mirror, eye_dot_mirror. reflexivity.
Qed.

End NoRoll.

Section CornerHits.

Context {Camera Projection : Type}.
Variable X : Externals Camera Projection.
Variable this : BoundsGenerator Camera Projection.
Hypothesis spherical : projection_type X (m_projection this) = Spherical.

Lemma spherical_hits_length (corners : list (Q * Q)) :
  length
    (flat_map
       (fun corner =>
          match rayCastWorldCoordinates X (m_camera this) (m_projection this)
                  (fst corner) (snd corner) with
          | Some hit =>
              if isInVisibleMap X this hit
              then [unprojectPoint X (m_projection this) hit] else []
          | None => []
          end)
       corners)
  = length
      (filter
         (fun corner =>
            match rayCastWorldCoordinates X (m_camera this) (m_projection this)
                    (fst corner) (snd corner) with
            | Some _ => true
            | None => false
            end)
         corners).
Proof.
  induction corners as [| corner corners IH]; [reflexivity |].
  simpl. rewrite length_app, IH.
  destruct (rayCastWorldCoordinates X (m_camera this) (m_projection this)
              (fst corner) (snd corner)) as [hit |]; [| reflexivity].
  unfold isInVisibleMap. rewrite spherical. reflexivity.
Qed.

Lemma validCornerHits_count :
  length (validCornerHits X this) = cornerHitCount X this.
Proof. apply spherical_hits_length. Qed.

Lemma addFarPlaneSideIntersections_returns (coords : list GeoCoordinates)
      (side : FarPlaneSide) :
  exists coords',
    addFarPlaneSideIntersections X this coords side = Normal coords'.
Proof.
  unfold addFarPlaneSideIntersections.
  rewrite (assert_Spherical X this spherical). cbn [bind].
  destruct (farPlaneSideCorners side) as [cornerA cornerB].
  eexists. reflexivity.
Qed.

(** With no corner hit or with two, the search on the sphere returns. *)
Lemma findBoundsIntersectionsOnSphere_returns :
  cornerHitCount X this = 0%nat \/ cornerHitCount X this = 2%nat ->
  exists coords, findBoundsIntersectionsOnSphere X this = Normal coords.
Proof.
  intro Hcount. unfold findBoundsIntersectionsOnSphere.
  rewrite (assert_Spherical X this spherical). cbn [bind].
  rewrite addCanvasCornerIntersection_corners, validCornerHits_count.
  assert (Hseed : exists seed,
             (if (cornerHitCount X this =? 0)%nat
              then addFarPlaneSideIntersections X this (validCornerHits X this) Bottom
              else assert X (cornerHitCount X this =? 2)%nat ;;;
                   Normal (validCornerHits X this))
             = Normal seed).
  { destruct Hcount as [-> | ->]; simpl.
    - apply addFarPlaneSideIntersections_returns.
    - unfold assert. destruct (isProduction X); eexists; reflexivity. }
  destruct Hseed as [seed Eseed].
  destruct Hcount as [E | E]; rewrite E in *; simpl (_ =? _)%nat in *; cbv iota;
    rewrite Eseed; cbn [bind];
    destruct (addFarPlaneSideIntersections_returns seed Right) as [c1 ->];
    cbn [bind];
    destruct (addFarPlaneSideIntersections_returns c1 Top) as [c2 ->];
    cbn [bind];
    destruct (addFarPlaneSideIntersections_returns c2 Left) as [c3 ->];
    cbn [bind]; eexists; reflexivity.
Qed.

End CornerHits.

(** C7.  For a camera without roll over the globe: when the raycasts through
    the four NDC corners do not all hit the ground sphere, exactly none or
    exactly two of them do; the corner points then number 0 or 2, so the
    assertion [coordinates.length === 2] holds whenever it is reached and the
    search on the sphere returns. *)
Theorem corner_hits_without_roll
        {Projection : Type}
        (X : Externals Pinhole.PerspectiveCamera Projection)
        (this : BoundsGenerator Pinhole.PerspectiveCamera Projection) :
  projection_type X (m_projection this) = Spherical ->
  Pinhole.orthogonalAxes (m_camera this) ->
  Pinhole.rollFree (m_camera this) ->
  Pinhole.raycastsSphere X this ->
  cornerHitCount X this <> 4%nat ->
  (cornerHitCount X this = 0%nat \/ cornerHitCount X this = 2%nat)
  /\ length (addCanvasCornerIntersection X this [] false) = cornerHitCount X this
  /\ exists coords, findBoundsIntersectionsOnSphere X this = Normal coords.
Proof.
  intros T Horth Hroll Hcast Hnot4.
  assert (Hcount : cornerHitCount X this = 0%nat \/ cornerHitCount X this = 2%nat).
  { assert (Hhit : forall ndcX ndcY,
               match rayCastWorldCoordinates X (m_camera this) (m_projection this)
                       ndcX ndcY with
               | Some _ => true
               | None => false
               end
               = Pinhole.hitsSphere (EQUATORIAL_RADIUS X) (m_camera this) ndcX ndcY).
    { intros ndcX ndcY. specialize (Hcast ndcX ndcY).
      destruct (rayCastWorldCoordinates X (m_camera this) (m_projection this)
                  ndcX ndcY);
        destruct (Pinhole.hitsSphere (EQUATORIAL_RADIUS X) (m_camera this)
                    ndcX ndcY); try reflexivity.
      - symmetry. apply Hcast. discriminate.
      - exfalso. apply (proj2 Hcast); reflexivity. }
    assert (Mlow : Pinhole.hitsSphere (EQUATORIAL_RADIUS X) (m_camera this) (-1) (-1)
                   = Pinhole.hitsSphere (EQUATORIAL_RADIUS X) (m_camera this) 1 (-1))
      by exact (@hitsSphere_mirror (m_camera this) (EQUATORIAL_RADIUS X) Horth Hroll 1 (-1)).
    assert (Mup : Pinhole.hitsSphere (EQUATORIAL_RADIUS X) (m_camera this) (-1) 1
                  = Pinhole.hitsSphere (EQUATORIAL_RADIUS X) (m_camera this) 1 1)
      by exact (@hitsSphere_mirror (m_camera this) (EQUATORIAL_RADIUS X) Horth Hroll 1 1).
    unfold cornerHitCount, ndcCorners in *. simpl in *.
    rewrite !Hhit in *. rewrite Mlow, Mup in *.
    destruct (Pinhole.hitsSphere (EQUATORIAL_RADIUS X) (m_camera this) 1 (-1));
      destruct (Pinhole.hitsSphere (EQUATORIAL_RADIUS X) (m_camera this) 1 1);
      simpl in *; auto; contradiction. }
  split; [exact Hcount |]. split.
  - rewrite addCanvasCornerIntersection_corners.
    apply validCornerHits_count, T.
  - apply findBoundsIntersectionsOnSphere_returns; assumption.
Qed.

(** C7, witness: a camera 7000 km from the centre of the globe, tilted
    towards the horizon: the two lower corners hit the ground, the two upper
    ones see the sky. *)
Lemma corner_hits_without_roll_witness :
  cornerHitCount Scenario.tiltedGlobe Scenario.tiltedView = 2%nat
  /\ exists coords,
      findBoundsIntersectionsOnSphere Scenario.tiltedGlobe Scenario.tiltedView
      = Normal coords.
Proof.
  assert (Hcast : Pinhole.raycastsSphere Scenario.tiltedGlobe Scenario.tiltedView).
  { intros ndcX ndcY. simpl.
    destruct (Pinhole.hitsSphere Scenario.earthRadius Scenario.tiltedCamera
                ndcX ndcY); split; congruence. }
  assert (Horth : Pinhole.orthogonalAxes (m_camera Scenario.tiltedView))
    by (split; reflexivity).
  assert (Hroll : Pinhole.rollFree (m_camera Scenario.tiltedView))
    by reflexivity.
  assert (Hnot4 : cornerHitCount Scenario.tiltedGlobe Scenario.tiltedView <> 4%nat)
    by (vm_compute; discriminate).
  destruct (@corner_hits_without_roll _ Scenario.tiltedGlobe Scenario.tiltedView
              eq_refl Horth Hroll Hcast Hnot4) as (Hcount & _ & Hreturns).
  split; [| exact Hreturns].
  destruct Hcount as [H | H]; [vm_compute in H; discriminate H | exact H].
Defined.

(* ------------------------------------------------------------------ *)
(** * Further properties of the code *)

(** ** The longitude loop and the antimeridian pass *)

(** X1.  The first loop of [normalizeCoordinates] leaves its two variables at
    [Infinity] and [-Infinity] on an empty array; on any other array it ends
    with the least and the greatest longitude of the array, both finite. *)
Theorem longitudeRange_extrema (coords : list GeoCoordinates) :
  (coords = [] -> longitudeRange coords = (Infinity, NegInfinity))
  /\ (coords <> [] ->
      exists lo hi,
        longitudeRange coords = (Finite lo, Finite hi)
        /\ longitudeExtrema coords lo hi).
Proof.
  split.
  - intros ->. reflexivity.
  - destruct coords as [| c coords]; [congruence |].
    intros _. apply longitudeRange_nonempty.
Qed.

Lemma normalizeCoordinates_either
      {Camera Projection : Type} (X : Externals Camera Projection)
      (this : BoundsGenerator Camera Projection)
      (coords : list GeoCoordinates) :
  normalizeCoordinates X this coords = coords
  \/ normalizeCoordinates X this coords = shiftNegativeLongitudes coords.
Proof.
  unfold normalizeCoordinates.
  destruct (longitudeRange coords) as [mn mx].
  repeat match goal with
         | |- context [if ?b then _ else _] => destruct b
         | |- context [match ?o with Some _ => _ | None => _ end] => destruct o
         end; auto.
Qed.

(** X2.  [normalizeCoordinates] keeps the number and the order of the
    points, and of each point the latitude and the altitude; a longitude is
    either kept or, if negative, increased by 360.  Either no point at all is
    changed or every point of negative longitude is. *)
Theorem normalizeCoordinates_pointwise
        {Camera Projection : Type} (X : Externals Camera Projection)
        (this : BoundsGenerator Camera Projection)
        (coords : list GeoCoordinates) :
  Forall2
    (fun before after =>
       latitude after = latitude before
       /\ altitude after = altitude before
       /\ (longitude after = longitude before
           \/ (longitude before < 0
               /\ longitude after = 360 + longitude before)))
    coords (normalizeCoordinates X this coords)
  /\ (normalizeCoordinates X this coords = coords
      \/ Forall2
           (fun before after =>
              longitude before < 0 ->
              longitude after = 360 + longitude before)
           coords (normalizeCoordinates X this coords)).
Proof.
  destruct (normalizeCoordinates_either X this coords) as [E | E]; rewrite E.
  - split; [| left; reflexivity].
    clear E. induction coords as [| c coords IH]; constructor;
      [repeat split; left; reflexivity | exact IH].
  - split; [| right]; clear E;
      induction coords as [| c coords IH]; simpl; constructor; try exact IH.
    + destruct (Qltb (longitude c) 0) eqn:L; simpl.
      * apply Qltb_lt in L. repeat split. right. split; [exact L | reflexivity].
      * repeat split. left. reflexivity.
    + intro L. apply Qltb_lt in L. rewrite L. reflexivity.
Qed.

Lemma shiftNegativeLongitudes_nonneg (coords : list GeoCoordinates) :
  Forall (fun c => -360 <= longitude c) coords ->
  allNonNegative (shiftNegativeLongitudes coords).
Proof.
  unfold allNonNegative. induction 1 as [| c coords Hc _ IH]; simpl;
    constructor; auto.
  destruct (Qltb (longitude c) 0) eqn:L; simpl.
  - lra.
  - apply Qltb_ge, L.
Qed.

(** X3.  On longitudes that are not below -360 the antimeridian pass is
    idempotent: running it again on its own result changes nothing.  If the
    pass shifted, its result has no negative longitude left. *)
Theorem normalizeCoordinates_idempotent
        {Camera Projection : Type} (X : Externals Camera Projection)
        (this : BoundsGenerator Camera Projection)
        (coords : list GeoCoordinates) :
  Forall (fun c => -360 <= longitude c) coords ->
  normalizeCoordinates X this (normalizeCoordinates X this coords)
  = normalizeCoordinates X this coords
  /\ (normalizeCoordinates X this coords <> coords ->
      allNonNegative (normalizeCoordinates X this coords)).
Proof.
  intro H.
  destruct (normalizeCoordinates_either X this coords) as [E | E]; rewrite E.
  - split; [exact E | congruence].
  - split.
    + apply normalizeCoordinates_early. left.
      apply shiftNegativeLongitudes_nonneg, H.
    + intros _. apply shiftNegativeLongitudes_nonneg, H.
Qed.

(** X3, witness: the longitudes -175 and 175 seen across the antimeridian. *)
Lemma normalizeCoordinates_idempotent_witness :
  normalizeCoordinates Scenario.globe Scenario.antimeridianView
    (normalizeCoordinates Scenario.globe Scenario.antimeridianView
       [Scenario.at_longitude (-175); Scenario.at_longitude 175])
  = normalizeCoordinates Scenario.globe Scenario.antimeridianView
      [Scenario.at_longitude (-175); Scenario.at_longitude 175].
Proof.
  apply (@normalizeCoordinates_idempotent _ _
           Scenario.globe Scenario.antimeridianView
           [Scenario.at_longitude (-175); Scenario.at_longitude 175]).
  repeat constructor; simpl; lra.
Defined.

(** ** What the accumulating steps add *)

Lemma flat_map_length_le {A B : Type} (f : A -> list B) (l : list A) :
  (forall a, (length (f a) <= 1)%nat) ->
  (length (flat_map f l) <= length l)%nat.
Proof.
  intro Hf. induction l as [| a l IH]; simpl; [lia |].
  rewrite length_app. specialize (Hf a). lia.
Qed.

Section Appending.

Context {Camera Projection : Type}.
Variable X : Externals Camera Projection.
Variable this : BoundsGenerator Camera Projection.

Lemma validateAndAddToGeoPolygon_appends (point : Vector3)
      (coords : list GeoCoordinates) :
  appendsAtMost 1 coords (validateAndAddToGeoPolygon X this point coords).
Proof.
  unfold validateAndAddToGeoPolygon, appendsAtMost.
  destruct (isInVisibleMap X this point).
  - eexists. split; [reflexivity | simpl; lia].
  - exists []. split; [symmetry; apply app_nil_r | simpl; lia].
Qed.

Lemma addNDCRayIntersection_appends (ndcPoints : list (Q * Q))
      (coords : list GeoCoordinates) :
  appendsAtMost (length ndcPoints) coords
                (addNDCRayIntersection X this ndcPoints coords).
Proof.
  rewrite addNDCRayIntersection_push. eexists. split; [reflexivity |].
  apply flat_map_length_le. intro corner.
  destruct (rayCastWorldCoordinates X (m_camera this) (m_projection this)
              (fst corner) (snd corner)) as [hit |];
    [destruct (isInVisibleMap X this hit) |]; simpl; lia.
Qed.

Lemma appendsAtMost_trans (n m : nat) (a b c : list GeoCoordinates) :
  appendsAtMost n a b -> appendsAtMost m b c -> appendsAtMost (n + m) a c.
Proof.
  intros (u & -> & Hu) (v & -> & Hv). exists (u ++ v).
  split; [symmetry; apply app_assoc | rewrite length_app; lia].
Qed.

Lemma appendsAtMost_weaken (n m : nat) (a b : list GeoCoordinates) :
  (n <= m)%nat -> appendsAtMost n a b -> appendsAtMost m a b.
Proof.
  intros Hnm (u & -> & Hu). exists u. split; [reflexivity | lia].
Qed.

Lemma appendsAtMost_refl (n : nat) (a : list GeoCoordinates) :
  appendsAtMost n a a.
Proof. exists []. split; [symmetry; apply app_nil_r | simpl; lia]. Qed.

Lemma addHorizonIntersection_appends (coords : list GeoCoordinates) :
  appendsAtMost 2 coords (addHorizonIntersection X this coords).
Proof.
  unfold addHorizonIntersection.
  destruct (projection_type X (m_projection this)).
  - destruct (getVerticalHorizonPositionInNDC X this) as [v |];
      [| apply appendsAtMost_refl].
    destruct (Qeqb0 v); [apply appendsAtMost_refl |].
    apply (addNDCRayIntersection_appends [(-1, v); (1, v)]).
  - cbv zeta.
    apply (@appendsAtMost_trans 1 1 _
             (match Ray_intersectSphere X
                      (mkRay (unproject X (vec3 (-1) 1 1) (m_camera this))
                             (subVectors
                                (unproject X (vec3 (-1) (-1) 1) (m_camera this))
                                (unproject X (vec3 (-1) 1 1) (m_camera this))))
                      (m_groundSphere X) with
              | Some i => validateAndAddToGeoPolygon X this i coords
              | None => coords
              end)).
    + destruct (Ray_intersectSphere X _ (m_groundSphere X));
        [apply validateAndAddToGeoPolygon_appends | apply appendsAtMost_refl].
    + destruct (Ray_intersectSphere X
                  (mkRay (unproject X (vec3 1 1 1) (m_camera this)) _)
                  (m_groundSphere X));
        [apply validateAndAddToGeoPolygon_appends | apply appendsAtMost_refl].
Qed.

Lemma confirmedIntersections_length (frustum : Frustum) (edge : Edge) :
  (length (confirmedIntersections X this frustum edge) <= 6)%nat.
Proof.
  unfold confirmedIntersections.
  change 6%nat with (length (planes frustum)).
  apply flat_map_length_le. intro plane.
  destruct (edgePlaneIntersection X edge plane) as [i |];
    [destruct (closeToFrustum X i (m_camera this)) |]; simpl; lia.
Qed.

Lemma containedWorldCorners_length (frustum : Frustum)
      (worldCorners : TileCorners) :
  (length (containedWorldCorners X this frustum worldCorners) <= 4)%nat.
Proof.
  unfold containedWorldCorners.
  apply (@flat_map_length_le _ _ _
           [ne worldCorners; nw worldCorners; se worldCorners; sw worldCorners]).
  intro corner. destruct (containsPoint X frustum corner); simpl; lia.
Qed.

Lemma sphereProbe_length (ray : Ray) :
  (length (sphereProbe X this ray) <= 1)%nat.
Proof.
  unfold sphereProbe.
  destruct (Ray_intersectSphere X ray (m_groundSphere X)); simpl; lia.
Qed.

Lemma farPlaneSidePoints_length (side : FarPlaneSide) :
  (length (farPlaneSidePoints X this side) <= 2)%nat.
Proof.
  unfold farPlaneSidePoints. cbv zeta. rewrite length_app.
  pose proof (sphereProbe_length
                (mkRay (unproject X (fst (farPlaneSideCorners side)) (m_camera this))
                       (subVectors
                          (unproject X (snd (farPlaneSideCorners side)) (m_camera this))
                          (unproject X (fst (farPlaneSideCorners side)) (m_camera this))))).
  pose proof (sphereProbe_length
                (mkRay (subVectors
                          (unproject X (snd (farPlaneSideCorners side)) (m_camera this))
                          (unproject X (fst (farPlaneSideCorners side)) (m_camera this)))
                       (subVectors
                          (unproject X (fst (farPlaneSideCorners side)) (m_camera this))
                          (subVectors
                             (unproject X (snd (farPlaneSideCorners side)) (m_camera this))
                             (unproject X (fst (farPlaneSideCorners side)) (m_camera this)))))).
  lia.
Qed.

(** Past its assertion, a far-plane side appends its two probes. *)
Lemma addFarPlaneSideIntersections_points (coords : list GeoCoordinates)
      (side : FarPlaneSide) :
  addFarPlaneSideIntersections X this coords side
  = (assert X (ProjectionType_eqb (projection_type X (m_projection this))
                                  Spherical) ;;;
     Normal (coords ++ farPlaneSidePoints X this side)).
Proof.
  unfold addFarPlaneSideIntersections, farPlaneSidePoints, sphereProbe.
  destruct (assert X _); [| reflexivity]. cbn [bind].
  destruct (farPlaneSideCorners side) as [cornerA cornerB]. cbn [fst snd].
  cbv zeta.
  destruct (Ray_intersectSphere X
              (mkRay (unproject X cornerA (m_camera this)) _) (m_groundSphere X));
    destruct (Ray_intersectSphere X
                (mkRay (subVectors _ _) _) (m_groundSphere X));
    rewrite ?app_nil_r, <- ?app_assoc; reflexivity.
Qed.

End Appending.

(** X4.  No step removes, replaces or reorders a point that is already in
    the array: each one returns the array it was given followed by what it
    adds, which is at most one point per NDC ray, at most two for the
    horizon, at most one for a world corner, at most six for an edge (one per
    frustum plane) and at most two for a side of the far plane. *)
Theorem steps_only_append
        {Camera Projection : Type} (X : Externals Camera Projection)
        (this : BoundsGenerator Camera Projection)
        (coords : list GeoCoordinates) :
  (forall ndcPoints,
      appendsAtMost (length ndcPoints) coords
                    (addNDCRayIntersection X this ndcPoints coords))
  /\ (forall addMidPoints,
         appendsAtMost 4 coords
                       (addCanvasCornerIntersection X this coords addMidPoints))
  /\ appendsAtMost 2 coords (addHorizonIntersection X this coords)
  /\ (forall point frustum,
         appendsAtMost 1 coords (addPointInFrustum X this point frustum coords))
  /\ (forall edge frustum,
         appendsAtMost 6 coords (addFrustumIntersection X this edge frustum coords))
  /\ (forall side coords',
         addFarPlaneSideIntersections X this coords side = Normal coords' ->
         appendsAtMost 2 coords coords').
Proof.
  split; [| split; [| split; [| split; [| split]]]].
  - intro ndcPoints. apply addNDCRayIntersection_appends.
  - intros [|]; unfold addCanvasCornerIntersection;
      apply (addNDCRayIntersection_appends X this
               [(_, _); (_, _); (_, _); (_, _)]).
  - apply addHorizonIntersection_appends.
  - intros point frustum. unfold addPointInFrustum.
    destruct (containsPoint X frustum point).
    + eexists. split; [reflexivity | simpl; lia].
    + apply appendsAtMost_refl.
  - intros edge frustum. rewrite addFrustumIntersection_push.
    eexists. split; [reflexivity | apply confirmedIntersections_length].
  - intros side coords' H. rewrite addFarPlaneSideIntersections_points in H.
    destruct (assert X _); [| discriminate]. cbn [bind] in H.
    injection H as <-. eexists. split; [reflexivity |].
    apply farPlaneSidePoints_length.
Qed.

(** ** The far plane of the spherical algorithm *)

(** X5.  What [addFarPlaneSideIntersections] probes.  With [a] and [b] the
    world points of the side's two far-plane corners, it appends the hit of
    the ray from [a] along [b - a], and then the hit of the ray that starts
    at the vector [b - a] and runs along [a - (b - a)]: [Vector3.sub] has
    overwritten [b] with [b - a] by the time the second ray is built.  That
    second ray starts at the far-plane corner [b] only if [a] is the origin
    of the world.  Under a planar projection the call throws, unless
    assertions are compiled out. *)
Theorem addFarPlaneSideIntersections_probes
        {Camera Projection : Type} (X : Externals Camera Projection)
        (this : BoundsGenerator Camera Projection)
        (coords : list GeoCoordinates) (side : FarPlaneSide) :
  let a := unproject X (fst (farPlaneSideCorners side)) (m_camera this) in
  let b := unproject X (snd (farPlaneSideCorners side)) (m_camera this) in
  (projection_type X (m_projection this) = Spherical \/ isProduction X = true ->
   addFarPlaneSideIntersections X this coords side
   = Normal (coords
               ++ sphereProbe X this (mkRay a (subVectors b a))
               ++ sphereProbe X this
                    (mkRay (subVectors b a) (subVectors a (subVectors b a)))))
  /\ (projection_type X (m_projection this) = Planar ->
      isProduction X = false ->
      addFarPlaneSideIntersections X this coords side = Throw AssertionFailed)
  /\ (subVectors b a = b -> x a == 0 /\ y a == 0 /\ z a == 0).
Proof.
  intros a b. split; [| split].
  - intro H. rewrite addFarPlaneSideIntersections_points.
    unfold assert. destruct H as [T | P].
    + rewrite T. simpl. destruct (isProduction X); reflexivity.
    + rewrite P. reflexivity.
  - intros T P. rewrite addFarPlaneSideIntersections_points.
    unfold assert. rewrite T, P. reflexivity.
  - intro H. unfold subVectors in H.
    assert (Hx := f_equal x H). assert (Hy := f_equal y H).
    assert (Hz := f_equal z H). simpl in Hx, Hy, Hz.
    assert (Ex : x b - x a == x b) by (rewrite Hx; reflexivity).
    assert (Ey : y b - y a == y b) by (rewrite Hy; reflexivity).
    assert (Ez : z b - z a == z b) by (rewrite Hz; reflexivity).
    repeat split; lra.
Qed.

(** X5, witness: on the globe's test double the bottom side adds nothing to
    an empty array. *)
Lemma addFarPlaneSideIntersections_probes_witness :
  addFarPlaneSideIntersections Scenario.globe Scenario.skyView [] Bottom
  = Normal [].
Proof.
  apply (proj1 (@addFarPlaneSideIntersections_probes _ _
                  Scenario.globe Scenario.skyView [] Bottom)).
  left. reflexivity.
Defined.

Section SphereSearch.

Context {Camera Projection : Type}.
Variable X : Externals Camera Projection.
Variable this : BoundsGenerator Camera Projection.
Hypothesis spherical : projection_type X (m_projection this) = Spherical.

Lemma addFarPlaneSideIntersections_Spherical (coords : list GeoCoordinates)
      (side : FarPlaneSide) :
  addFarPlaneSideIntersections X this coords side
  = Normal (coords ++ farPlaneSidePoints X this side).
Proof.
  rewrite addFarPlaneSideIntersections_points, (assert_Spherical X this spherical).
  reflexivity.
Qed.

Lemma cornerHitCount_le : (cornerHitCount X this <= 4)%nat.
Proof.
  unfold cornerHitCount.
  apply (Nat.le_trans _ _ _ (filter_length_le _ ndcCorners)). simpl. lia.
Qed.

Lemma findBoundsIntersectionsOnSphere_eq :
  findBoundsIntersectionsOnSphere X this
  = if (cornerHitCount X this =? 4)%nat then Normal (validCornerHits X this)
    else if (cornerHitCount X this =? 0)%nat
         then Normal (flat_map (farPlaneSidePoints X this)
                               [Bottom; Right; Top; Left])
         else assert X (cornerHitCount X this =? 2)%nat ;;;
              Normal (validCornerHits X this
                        ++ flat_map (farPlaneSidePoints X this)
                                    [Right; Top; Left]).
Proof.
  unfold findBoundsIntersectionsOnSphere.
  rewrite (assert_Spherical X this spherical). cbn [bind].
  rewrite addCanvasCornerIntersection_corners, (validCornerHits_count X this spherical).
  destruct (cornerHitCount X this =? 4)%nat; [reflexivity |].
  destruct (cornerHitCount X this =? 0)%nat eqn:Z.
  - apply Nat.eqb_eq in Z.
    rewrite <- (validCornerHits_count X this spherical) in Z.
    apply length_zero_iff_nil in Z. rewrite Z.
    rewrite !addFarPlaneSideIntersections_Spherical. cbn [bind].
    rewrite !addFarPlaneSideIntersections_Spherical. cbn [bind].
    rewrite !addFarPlaneSideIntersections_Spherical. cbn [bind].
    rewrite !addFarPlaneSideIntersections_Spherical. cbn [bind].
    simpl. rewrite app_nil_r, <- !app_assoc. reflexivity.
  - destruct (assert X (cornerHitCount X this =? 2)%nat); [| reflexivity].
    cbn [bind].
    rewrite !addFarPlaneSideIntersections_Spherical. cbn [bind].
    rewrite !addFarPlaneSideIntersections_Spherical. cbn [bind].
    rewrite !addFarPlaneSideIntersections_Spherical. cbn [bind].
    simpl. rewrite app_nil_r, <- !app_assoc. reflexivity.
Qed.

End SphereSearch.

(** X6.  The points the spherical algorithm collects, by the number of
    corner raycasts that hit the ground: with four hits, the four corner
    points and nothing else; with none, the probes of the bottom, right, top
    and left side of the far plane, in this order; with two, the two corner
    points followed by the probes of the right, top and left side, the bottom
    side being left out. *)
Theorem findBoundsIntersectionsOnSphere_by_corner_hits
        {Camera Projection : Type} (X : Externals Camera Projection)
        (this : BoundsGenerator Camera Projection) :
  projection_type X (m_projection this) = Spherical ->
  (cornerHitCount X this = 4%nat ->
   findBoundsIntersectionsOnSphere X this = Normal (validCornerHits X this))
  /\ (cornerHitCount X this = 0%nat ->
      findBoundsIntersectionsOnSphere X this
      = Normal (flat_map (farPlaneSidePoints X this) [Bottom; Right; Top; Left]))
  /\ (cornerHitCount X this = 2%nat ->
      findBoundsIntersectionsOnSphere X this
      = Normal (validCornerHits X this
                  ++ flat_map (farPlaneSidePoints X this) [Right; Top; Left])).
Proof.
  intro T. rewrite (findBoundsIntersectionsOnSphere_eq X this T).
  split; [| split]; intros ->; simpl; try reflexivity.
  unfold assert. destruct (isProduction X); reflexivity.
Qed.

(** X6, witness: the camera that looks past the globe has no corner hit and
    no far-plane hit. *)
Lemma findBoundsIntersectionsOnSphere_by_corner_hits_witness :
  findBoundsIntersectionsOnSphere Scenario.globe Scenario.skyView = Normal [].
Proof.
  apply (proj1 (proj2 (@findBoundsIntersectionsOnSphere_by_corner_hits _ _
                         Scenario.globe Scenario.skyView eq_refl))).
  reflexivity.
Defined.

(** X7.  Under a spherical projection [generate] throws exactly when
    assertions are active and one or three of the four corner raycasts hit
    the ground; what it throws is the assertion's error.  With assertions
    compiled out it always returns. *)
Theorem generate_on_sphere_throws_iff
        {Camera Projection : Type} (X : Externals Camera Projection)
        (this : BoundsGenerator Camera Projection) :
  projection_type X (m_projection this) = Spherical ->
  (generate X this = Throw AssertionFailed
   <-> isProduction X = false
       /\ (cornerHitCount X this = 1%nat \/ cornerHitCount X this = 3%nat))
  /\ generate X this <> Throw TypeError.
Proof.
  intro T. unfold generate. rewrite T.
  rewrite (generateOnSphere_boundaryPoints X this T).
  rewrite (findBoundsIntersectionsOnSphere_eq X this T).
  pose proof (cornerHitCount_le X this) as Hle.
  unfold assert.
  destruct (cornerHitCount X this) as [| [| [| [| [| n]]]]]; simpl; try lia;
    destruct (isProduction X); simpl; split;
      try discriminate;
      try (split; [discriminate | intros [_ [H | H]]; discriminate]);
      try (split; [discriminate | intros [H _]; discriminate]);
      try (split; [intros _; split; auto | reflexivity]).
Qed.

(** X7, witness: a globe camera whose lower left corner ray alone hits the
    ground makes [generate] throw. *)
Lemma generate_on_sphere_throws_iff_witness :
  generate Scenario.globe
    {| m_camera := fun ndcX ndcY =>
                     if Qltb ndcX 0 && Qltb ndcY 0
                     then Some (vec3 0 0 0) else None;
       m_projection := tt;
       tileWrappingEnabled := false |}
  = Throw AssertionFailed.
Proof.
  apply (proj1 (@generate_on_sphere_throws_iff _ _ Scenario.globe _ eq_refl)).
  split; [reflexivity | left; reflexivity].
Defined.

(** X8.  Under a planar projection [generate] never throws: it returns a
    polygon or absence. *)
Theorem generate_on_plane_returns
        {Camera Projection : Type} (X : Externals Camera Projection)
        (this : BoundsGenerator Camera Projection) :
  projection_type X (m_projection this) = Planar ->
  exists result, generate X this = Normal result.
Proof.
  intro T. rewrite generate_boundaryPoints. unfold boundaryPoints.
  rewrite T. unfold planeBoundaryPoints, getWorldConers. rewrite T.
  destruct (length (validCornerHits X this) =? 4)%nat;
    eexists; reflexivity.
Qed.

(** X8, witness: the view of the whole flat world. *)
Lemma generate_on_plane_returns_witness :
  exists result,
    generate Scenario.flatWorld Scenario.worldView = Normal result.
Proof.
  apply (@generate_on_plane_returns _ _ Scenario.flatWorld Scenario.worldView).
  reflexivity.
Defined.

(** ** The size of the polygon *)

Lemma flat_map_length_bound {A B : Type} (f : A -> list B) (k : nat)
      (l : list A) :
  (forall a, (length (f a) <= k)%nat) ->
  (length (flat_map f l) <= k * length l)%nat.
Proof.
  intro Hf. induction l as [| a l IH]; simpl; [lia |].
  rewrite length_app. specialize (Hf a). lia.
Qed.

Section Sizes.

Context {Camera Projection : Type}.
Variable X : Externals Camera Projection.
Variable this : BoundsGenerator Camera Projection.

Lemma validCornerHits_length : (length (validCornerHits X this) <= 4)%nat.
Proof.
  unfold validCornerHits.
  apply (@flat_map_length_le _ _ _ ndcCorners). intro corner.
  destruct (rayCastWorldCoordinates X (m_camera this) (m_projection this)
              (fst corner) (snd corner)) as [hit |];
    [destruct (isInVisibleMap X this hit) |]; simpl; lia.
Qed.

Lemma worldBoundaryPoints_length (frustum : Frustum)
      (worldCorners : TileCorners) :
  (length (worldBoundaryPoints X this frustum worldCorners)
   <= if tileWrappingEnabled this then 24 else 28)%nat.
Proof.
  unfold worldBoundaryPoints.
  pose proof (@flat_map_length_bound _ _ (confirmedIntersections X this frustum) 6
                (worldRays X worldCorners)
                (confirmedIntersections_length X this frustum)) as Hrays.
  pose proof (@flat_map_length_bound _ _ (confirmedIntersections X this frustum) 6
                (worldEdges worldCorners)
                (confirmedIntersections_length X this frustum)) as Hedges.
  pose proof (containedWorldCorners_length X this frustum worldCorners).
  change (length (worldRays X worldCorners)) with 4%nat in Hrays.
  change (length (worldEdges worldCorners)) with 4%nat in Hedges.
  destruct (tileWrappingEnabled this); rewrite ?length_app; lia.
Qed.

Lemma planeBoundaryPoints_length (points : list GeoCoordinates) :
  planeBoundaryPoints X this = Normal points ->
  (length points <= if tileWrappingEnabled this then 29 else 33)%nat.
Proof.
  unfold planeBoundaryPoints.
  pose proof validCornerHits_length as Hc.
  destruct (Nat.eqb_spec (length (validCornerHits X this)) 4) as [E | NE].
  - intro H. injection H as <-. destruct (tileWrappingEnabled this); lia.
  - destruct (getWorldConers X (m_projection this)) as [worldCorners |];
      [| discriminate].
    intro H. injection H as <-.
    destruct (addHorizonIntersection_appends X this (validCornerHits X this))
      as (added & -> & Ha).
    pose proof (worldBoundaryPoints_length
                  (cameraFrustum X (m_camera this)) worldCorners) as Hw.
    rewrite !length_app.
    destruct (tileWrappingEnabled this); lia.
Qed.

Lemma sphereBoundaryPoints_length (points : list GeoCoordinates) :
  projection_type X (m_projection this) = Spherical ->
  findBoundsIntersectionsOnSphere X this = Normal points ->
  (length points <= 9)%nat.
Proof.
  intros T. rewrite (findBoundsIntersectionsOnSphere_eq X this T).
  pose proof (cornerHitCount_le X this) as Hle.
  pose proof (validCornerHits_count X this T) as Hc.
  pose proof (@flat_map_length_bound _ _ (farPlaneSidePoints X this) 2
                [Bottom; Right; Top; Left]
                (farPlaneSidePoints_length X this)) as H4.
  pose proof (@flat_map_length_bound _ _ (farPlaneSidePoints X this) 2
                [Right; Top; Left]
                (farPlaneSidePoints_length X this)) as H3.
  simpl length in H4, H3.
  destruct (Nat.eqb_spec (cornerHitCount X this) 4) as [E | NE].
  - intro H. injection H as <-. lia.
  - destruct (cornerHitCount X this =? 0)%nat.
    + intro H. injection H as <-. lia.
    + destruct (assert X (cornerHitCount X this =? 2)%nat); [| discriminate].
      cbn [bind]. intro H. injection H as <-. rewrite length_app. lia.
Qed.

End Sizes.

(** X9.  A polygon that [generate] returns has between 3 and 33 vertices:
    at most 9 under a spherical projection, at most 33 under a planar
    projection without tile wrapping and at most 29 with it.  (The sort of
    the polygon's constructor keeps the length of the array.) *)
Theorem generate_vertex_count
        {Camera Projection : Type} (X : Externals Camera Projection)
        (this : BoundsGenerator Camera Projection) (polygon : GeoPolygon) :
  (forall l, length (sortCCW X l) = length l) ->
  generate X this = Normal (Some polygon) ->
  (3 <= length (coordinates polygon))%nat
  /\ (length (coordinates polygon)
      <= match projection_type X (m_projection this) with
         | Spherical => 9
         | Planar => if tileWrappingEnabled this then 29 else 33
         end)%nat.
Proof.
  intros Hsort. rewrite generate_boundaryPoints.
  destruct (boundaryPoints X this) as [points |] eqn:B; [| discriminate].
  cbn [bind]. intro H. injection H as H.
  apply createPolygon_Some in H. destruct H as [Hlen ->].
  unfold new_GeoPolygon. cbn [coordinates]. rewrite Hsort.
  assert (L : length (if ProjectionType_eqb
                           (projection_type X (m_projection this)) Spherical
                      then normalizeCoordinates X this points else points)
              = length points)
    by (destruct (ProjectionType_eqb _ _);
        rewrite ?normalizeCoordinates_length; reflexivity).
  rewrite L. split; [exact Hlen |].
  unfold boundaryPoints in B.
  destruct (projection_type X (m_projection this)) eqn:T.
  - apply (planeBoundaryPoints_length X this B).
  - destruct (findBoundsIntersectionsOnSphere X this) as [found |] eqn:F;
      [| discriminate].
    cbn [bind] in B. injection B as <-.
    apply (sphereBoundaryPoints_length X this T F).
Qed.

(** X9, witness: the street-level view gives four vertices. *)
Lemma generate_vertex_count_witness :
  (3 <= length (validCornerHits Scenario.flatWorld Scenario.streetView))%nat
  /\ (length (validCornerHits Scenario.flatWorld Scenario.streetView) <= 33)%nat.
Proof.
  apply (@generate_vertex_count _ _ Scenario.flatWorld Scenario.streetView
           (mkGeoPolygon (validCornerHits Scenario.flatWorld Scenario.streetView))
           (fun l => eq_refl) eq_refl).
Defined.

(** ** The horizon step *)

(** X10.  The horizon step of the planar algorithm tests its NDC height with
    [!verticalHorizonPosition], which also holds of the number 0: when the
    horizon crosses the far plane exactly at the middle of the screen the
    step adds nothing, whatever the two rays at that height would hit.  At
    any other height it casts the rays through (-1, height) and
    (1, height). *)
Theorem addHorizonIntersection_at_screen_centre
        {Camera Projection : Type} (X : Externals Camera Projection)
        (this : BoundsGenerator Camera Projection)
        (coords : list GeoCoordinates) (height : Q) :
  projection_type X (m_projection this) = Planar ->
  getVerticalHorizonPositionInNDC X this = Some height ->
  (height == 0 -> addHorizonIntersection X this coords = coords)
  /\ (~ height == 0 ->
      addHorizonIntersection X this coords
      = addNDCRayIntersection X this [(-1, height); (1, height)] coords).
Proof.
  intros T H. unfold addHorizonIntersection. rewrite T, H. unfold Qeqb0.
  split; intro Hz.
  - apply Qeq_bool_iff in Hz. rewrite Hz. reflexivity.
  - destruct (Qeq_bool height 0) eqn:E; [| reflexivity].
    apply Qeq_bool_iff in E. contradiction.
Qed.

(** X10, witness: a camera whose far plane crosses the ground at the middle
    of the screen.  The rays through (-1, 0) and (1, 0) hit two valid
    points, and the horizon step adds none. *)
Lemma addHorizonIntersection_at_screen_centre_witness :
  addHorizonIntersection Horizon.horizonWorld Scenario.streetView [] = []
  /\ length (addNDCRayIntersection Horizon.horizonWorld Scenario.streetView
               [(-1, 0); (1, 0)] [])
     = 2%nat.
Proof.
  split; [| reflexivity].
  apply (proj1 (@addHorizonIntersection_at_screen_centre _ _
                  Horizon.horizonWorld Scenario.streetView []
                  (0 # 2000000000000000) eq_refl eq_refl)).
  reflexivity.
Defined.

(** ** Tile wrapping *)

Lemma isInVisibleMap_wrapping
      {Camera Projection : Type} (X : Externals Camera Projection)
      (this : BoundsGenerator Camera Projection) (point : Vector3) :
  isInVisibleMap X this point = true ->
  isInVisibleMap X (withWrapping this true) point = true.
Proof.
  unfold isInVisibleMap. simpl.
  destruct (projection_type X (m_projection this)); [| reflexivity].
  destruct (Qltb (y point) 0 || Qgtb (y point) (EQUATORIAL_CIRCUMFERENCE X));
    [discriminate | reflexivity].
Qed.

Lemma validCornerHits_wrapping_Spherical
      {Camera Projection : Type} (X : Externals Camera Projection)
      (this : BoundsGenerator Camera Projection) (enabled : bool) :
  projection_type X (m_projection this) = Spherical ->
  validCornerHits X (withWrapping this enabled) = validCornerHits X this.
Proof.
  intro T. unfold validCornerHits, isInVisibleMap. simpl. rewrite !T.
  reflexivity.
Qed.

(** X11.  Under a spherical projection the flag [tileWrappingEnabled] has no
    effect on [generate]. *)
Theorem generate_on_sphere_ignores_wrapping
        {Camera Projection : Type} (X : Externals Camera Projection)
        (this : BoundsGenerator Camera Projection) (enabled : bool) :
  projection_type X (m_projection this) = Spherical ->
  generate X (withWrapping this enabled) = generate X this.
Proof.
  intro T.
  assert (T' : projection_type X (m_projection (withWrapping this enabled))
               = Spherical) by exact T.
  unfold generate. rewrite T'. rewrite T.
  rewrite (generateOnSphere_boundaryPoints X _ T'),
          (generateOnSphere_boundaryPoints X _ T).
  rewrite (findBoundsIntersectionsOnSphere_eq X _ T'),
          (findBoundsIntersectionsOnSphere_eq X _ T).
  unfold cornerHitCount. cbn [m_camera m_projection withWrapping].
  rewrite (validCornerHits_wrapping_Spherical X this enabled T).
  reflexivity.
Qed.

(** X11, witness: the view across the antimeridian, with the flag set. *)
Lemma generate_on_sphere_ignores_wrapping_witness :
  generate Scenario.globe (withWrapping Scenario.antimeridianView true)
  = generate Scenario.globe Scenario.antimeridianView.
Proof.
  apply (@generate_on_sphere_ignores_wrapping _ _
           Scenario.globe Scenario.antimeridianView true eq_refl).
Defined.

Lemma validCornerHits_wrapping_full
      {Camera Projection : Type} (X : Externals Camera Projection)
      (this : BoundsGenerator Camera Projection) :
  length (validCornerHits X this) = 4%nat ->
  validCornerHits X (withWrapping this true) = validCornerHits X this.
Proof.
  unfold validCornerHits, ndcCorners. simpl.
  repeat match goal with
         | |- context [rayCastWorldCoordinates X ?c ?p ?a ?b] =>
             let h := fresh "hit" in
             let V := fresh "V" in
             destruct (rayCastWorldCoordinates X c p a b) as [h |];
             [destruct (isInVisibleMap X this h) eqn:V;
              [rewrite (isInVisibleMap_wrapping X this h V) |] |]
         end;
    simpl; intro H; try discriminate H; reflexivity.
Qed.

(** X12.  Enabling tile wrapping never rejects a point that was valid without
    it.  Hence, under a planar projection, a view whose four corner rays all
    give valid points gets the same polygon from [generate] once tile
    wrapping is enabled. *)
Theorem enabling_wrapping_keeps_full_view
        {Camera Projection : Type} (X : Externals Camera Projection)
        (this : BoundsGenerator Camera Projection) :
  (forall point,
      isInVisibleMap X this point = true ->
      isInVisibleMap X (withWrapping this true) point = true)
  /\ (projection_type X (m_projection this) = Planar ->
      length (validCornerHits X this) = 4%nat ->
      generate X (withWrapping this true) = generate X this).
Proof.
  split; [apply isInVisibleMap_wrapping |].
  intros T H. unfold generate. cbn [m_projection withWrapping]. rewrite T.
  unfold generateOnPlane. rewrite !addCanvasCornerIntersection_corners.
  rewrite (validCornerHits_wrapping_full X this H), H. reflexivity.
Qed.

(** X12, witness: the street-level view of the flat world. *)
Lemma enabling_wrapping_keeps_full_view_witness :
  generate Scenario.flatWorld (withWrapping Scenario.streetView true)
  = generate Scenario.flatWorld Scenario.streetView.
Proof.
  apply (proj2 (@enabling_wrapping_keeps_full_view _ _
                  Scenario.flatWorld Scenario.streetView)
               eq_refl eq_refl).
Defined.

(** ** The corner rays *)

(** X13.  The flag [addMidPoints] of [addCanvasCornerIntersection] adds no
    mid point: it casts the same four corner rays in another order, so the
    points it adds are those added without the flag, rearranged. *)
Theorem addMidPoints_only_reorders
        {Camera Projection : Type} (X : Externals Camera Projection)
        (this : BoundsGenerator Camera Projection)
        (coords : list GeoCoordinates) :
  exists added addedWithFlag,
    addCanvasCornerIntersection X this coords false = coords ++ added
    /\ addCanvasCornerIntersection X this coords true = coords ++ addedWithFlag
    /\ Permutation added addedWithFlag.
Proof.
  unfold addCanvasCornerIntersection. rewrite !addNDCRayIntersection_push.
  eexists. eexists. split; [reflexivity |]. split; [reflexivity |].
  apply Permutation_flat_map.
  apply perm_skip.
  apply (@perm_trans _ _ [(1, 1); (-1, 1); (1, -1)]).
  - apply (perm_swap (1, 1) (-1, 1) [(1, -1)]).
  - apply (@perm_trans _ _ [(1, 1); (1, -1); (-1, 1)]).
    + apply perm_skip. apply perm_swap.
    + apply (perm_swap (1, -1) (1, 1) [(-1, 1)]).
Qed.

(** ** The static elevation range source *)

(** X14.  A source built from a data source answers every tile with the data
    source's geometry heights and tiling scheme, whatever elevations were
    passed along; a source built from a tiling scheme answers with the
    elevations passed, and with 0 for each one left out.  The constructor
    does not compare the two elevations. *)
Theorem static_elevation_constructor
        {TilingScheme TileKey : Type}
        (dataSource : ElevationRangeSource.DataSource TilingScheme)
        (tilingScheme : TilingScheme)
        (minElevation maxElevation : option Q) (lo hi : Q) (tileKey : TileKey) :
  let fromData :=
    ElevationRangeSource.new_StaticElevationRangeSource
      (inl dataSource) minElevation maxElevation in
  let fromScheme :=
    ElevationRangeSource.new_StaticElevationRangeSource
      (inr tilingScheme) in
  ElevationRangeSource.minElevation
    (ElevationRangeSource.getElevationRange fromData tileKey)
  = ElevationRangeSource.minGeometryHeight dataSource
  /\ ElevationRangeSource.maxElevation
       (ElevationRangeSource.getElevationRange fromData tileKey)
     = ElevationRangeSource.maxGeometryHeight dataSource
  /\ ElevationRangeSource.getTilingScheme fromData
     = ElevationRangeSource.ds_getTilingScheme dataSource
  /\ ElevationRangeSource.getElevationRange (fromScheme (Some lo) (Some hi)) tileKey
     = {| ElevationRangeSource.minElevation := lo;
          ElevationRangeSource.maxElevation := hi;
          ElevationRangeSource.calculationStatus :=
            Some ElevationRangeSource.FinalPrecise |}
  /\ ElevationRangeSource.getElevationRange (fromScheme None None) tileKey
     = {| ElevationRangeSource.minElevation := 0;
          ElevationRangeSource.maxElevation := 0;
          ElevationRangeSource.calculationStatus :=
            Some ElevationRangeSource.FinalPrecise |}
  /\ ElevationRangeSource.getElevationRange (fromScheme (Some lo) None) tileKey
     = {| ElevationRangeSource.minElevation := lo;
          ElevationRangeSource.maxElevation := 0;
          ElevationRangeSource.calculationStatus :=
            Some ElevationRangeSource.FinalPrecise |}
  /\ ElevationRangeSource.getTilingScheme (fromScheme minElevation maxElevation)
     = tilingScheme.
Proof. repeat split. Qed.

(** ** Two whole views *)

Lemma flat_map_nil {A B : Type} (f : A -> list B) (l : list A) :
  (forall a, In a l -> f a = []) -> flat_map f l = [].
Proof.
  induction l as [| a l IH]; intro H; simpl; [reflexivity |].
  rewrite (H a (or_introl eq_refl)), IH; [reflexivity |].
  intros b Hb. apply H. right. exact Hb.
Qed.

(** X15.  The whole world in view.  Under a planar projection without tile
    wrapping, when no corner ray gives a valid point, the far plane does not
    cross the ground, the frustum contains the four world corners and no
    intersection of a world edge with a frustum plane is close to the
    frustum, [generate] returns the polygon of the four world corners NE, NW,
    SE, SW at altitude 0. *)
Theorem generate_world_inside_view
        {Camera Projection : Type} (X : Externals Camera Projection)
        (this : BoundsGenerator Camera Projection) (worldCorners : TileCorners) :
  getWorldConers X (m_projection this) = Some worldCorners ->
  tileWrappingEnabled this = false ->
  validCornerHits X this = [] ->
  getVerticalHorizonPositionInNDC X this = None ->
  (forall corner,
      In corner [ne worldCorners; nw worldCorners;
                 se worldCorners; sw worldCorners] ->
      containsPoint X (cameraFrustum X (m_camera this)) corner = true) ->
  (forall edge plane intersection,
      In edge (worldEdges worldCorners) ->
      In plane (planes (cameraFrustum X (m_camera this))) ->
      edgePlaneIntersection X edge plane = Some intersection ->
      closeToFrustum X intersection (m_camera this) = false) ->
  generate X this
  = Normal
      (Some
         (mkGeoPolygon
            (sortCCW X
               (map (fun corner =>
                       set_altitude
                         (unprojectPoint X (m_projection this) corner) 0)
                    [ne worldCorners; nw worldCorners;
                     se worldCorners; sw worldCorners])))).
Proof.
  intros Hworld W Hcorners Hhorizon Hinside Hedges.
  assert (T : projection_type X (m_projection this) = Planar).
  { unfold getWorldConers in Hworld.
    destruct (projection_type X (m_projection this));
      [reflexivity | discriminate]. }
  unfold generate. rewrite T, generateOnPlane_boundaryPoints.
  unfold planeBoundaryPoints. rewrite Hcorners, Hworld. simpl (length [] =? 4)%nat.
  cbv iota. unfold addHorizonIntersection. rewrite T, Hhorizon.
  unfold worldBoundaryPoints. rewrite W.
  rewrite (@flat_map_nil _ _ (confirmedIntersections X this
                                (cameraFrustum X (m_camera this)))
             (worldEdges worldCorners)).
  - unfold containedWorldCorners. simpl.
    rewrite !Hinside; simpl; auto 6.
  - intros edge Hedge. unfold confirmedIntersections.
    apply flat_map_nil. intros plane Hplane.
    destruct (edgePlaneIntersection X edge plane) as [i |] eqn:E;
      [| reflexivity].
    rewrite (Hedges edge plane i Hedge Hplane E). reflexivity.
Qed.

(** X15, witness: the flat world seen from far above its centre. *)
Lemma generate_world_inside_view_witness :
  generate Scenario.flatWorld Scenario.worldView
  = Normal
      (Some
         (mkGeoPolygon
            [mkGeo Scenario.circumference Scenario.circumference (Some 0);
             mkGeo Scenario.circumference 0 (Some 0);
             mkGeo 0 Scenario.circumference (Some 0);
             mkGeo 0 0 (Some 0)])).
Proof.
  refine (@generate_world_inside_view _ _ Scenario.flatWorld Scenario.worldView
            _ eq_refl eq_refl eq_refl eq_refl _ _).
  - intros corner [<- | [<- | [<- | [<- | []]]]]; reflexivity.
  - intros edge plane i
           [<- | [<- | [<- | [<- | []]]]]
           [<- | [<- | [<- | [<- | [<- | [<- | []]]]]]];
      intro H; vm_compute in H;
      first [discriminate H | injection H as <-; vm_compute; reflexivity].
Defined.

(** X16.  Nothing in view.  [generate] returns absence when no corner ray
    gives a valid point and nothing else that it probes gives one either:
    - under a spherical projection, when neither ray of any side of the far
      plane meets the ground sphere (the rays being those of X5);
    - under a planar projection, when the two horizon rays, if they are cast,
      give no valid point, the frustum contains none of the four world
      corners (asked only without tile wrapping), and no intersection of a
      world edge, or with tile wrapping of a world ray, with a frustum plane
      is close to the frustum. *)
Theorem generate_nothing_in_view
        {Camera Projection : Type} (X : Externals Camera Projection)
        (this : BoundsGenerator Camera Projection) :
  validCornerHits X this = [] ->
  (projection_type X (m_projection this) = Spherical ->
   (forall side,
       let a := unproject X (fst (farPlaneSideCorners side)) (m_camera this) in
       let b := unproject X (snd (farPlaneSideCorners side)) (m_camera this) in
       Ray_intersectSphere X (mkRay a (subVectors b a)) (m_groundSphere X)
       = None
       /\ Ray_intersectSphere X
            (mkRay (subVectors b a) (subVectors a (subVectors b a)))
            (m_groundSphere X)
          = None) ->
   generate X this = Normal None)
  /\ (forall worldCorners,
         getWorldConers X (m_projection this) = Some worldCorners ->
         (forall height,
             getVerticalHorizonPositionInNDC X this = Some height ->
             ~ height == 0 ->
             forall ndcX hit,
               In ndcX [-1; 1] ->
               rayCastWorldCoordinates X (m_camera this) (m_projection this)
                 ndcX height = Some hit ->
               isInVisibleMap X this hit = false) ->
         (tileWrappingEnabled this = false ->
          forall corner,
            In corner [ne worldCorners; nw worldCorners;
                       se worldCorners; sw worldCorners] ->
            containsPoint X (cameraFrustum X (m_camera this)) corner = false) ->
         (forall edge plane intersection,
             In edge (if tileWrappingEnabled this
                      then worldRays X worldCorners
                      else worldEdges worldCorners) ->
             In plane (planes (cameraFrustum X (m_camera this))) ->
             edgePlaneIntersection X edge plane = Some intersection ->
             closeToFrustum X intersection (m_camera this) = false) ->
         generate X this = Normal None).
Proof.
  intro Hcorners. split.
  - intros T Hsides. unfold generate. rewrite T.
    rewrite (generateOnSphere_boundaryPoints X this T),
            (findBoundsIntersectionsOnSphere_eq X this T).
    rewrite <- (validCornerHits_count X this T), Hcorners. simpl.
    unfold farPlaneSidePoints, sphereProbe.
    destruct (Hsides Bottom) as [-> ->]. destruct (Hsides Right) as [-> ->].
    destruct (Hsides Top) as [-> ->]. destruct (Hsides Left) as [-> ->].
    reflexivity.
  - intros worldCorners Hworld Hhorizon Hinside Hedges.
    assert (T : projection_type X (m_projection this) = Planar).
    { unfold getWorldConers in Hworld.
      destruct (projection_type X (m_projection this));
        [reflexivity | discriminate]. }
    unfold generate. rewrite T, generateOnPlane_boundaryPoints.
    unfold planeBoundaryPoints.
    rewrite Hcorners, Hworld. simpl (length [] =? 4)%nat. cbv iota.
    assert (Hseed : addHorizonIntersection X this [] = []).
    { unfold addHorizonIntersection. rewrite T.
      destruct (getVerticalHorizonPositionInNDC X this) as [v |] eqn:V;
        [| reflexivity].
      unfold Qeqb0. destruct (Qeq_bool v 0) eqn:Z; [reflexivity |].
      assert (Hv : ~ v == 0)
        by (intro E; apply Qeq_bool_iff in E; congruence).
      rewrite addNDCRayIntersection_push. simpl.
      destruct (rayCastWorldCoordinates X (m_camera this) (m_projection this)
                  (-1) v) as [hit |] eqn:L;
        [rewrite (Hhorizon v eq_refl Hv (-1) hit (or_introl eq_refl) L) |];
        destruct (rayCastWorldCoordinates X (m_camera this) (m_projection this)
                    1 v) as [hit' |] eqn:R;
        try rewrite (Hhorizon v eq_refl Hv 1 hit'
                       (or_intror (or_introl eq_refl)) R);
        reflexivity. }
    rewrite Hseed.
    assert (Hworldpoints : worldBoundaryPoints X this
                             (cameraFrustum X (m_camera this)) worldCorners
                           = []).
    { assert (Hconfirmed :
               flat_map (confirmedIntersections X this
                           (cameraFrustum X (m_camera this)))
                        (if tileWrappingEnabled this
                         then worldRays X worldCorners
                         else worldEdges worldCorners)
               = []).
      { apply flat_map_nil. intros edge Hedge.
        unfold confirmedIntersections. apply flat_map_nil.
        intros plane Hplane.
        destruct (edgePlaneIntersection X edge plane) as [i |] eqn:E;
          [| reflexivity].
        rewrite (Hedges edge plane i Hedge Hplane E). reflexivity. }
      unfold worldBoundaryPoints.
      destruct (tileWrappingEnabled this); [exact Hconfirmed |].
      rewrite Hconfirmed. unfold containedWorldCorners.
      rewrite flat_map_nil; [reflexivity |].
      intros corner Hin. rewrite (Hinside eq_refl corner Hin). reflexivity. }
    rewrite Hworldpoints. reflexivity.
Qed.

(** X16, witness.  On the sphere: the camera beyond the globe that looks away
    from it, none of whose eight far-plane rays meets the ground.  On the
    plane: the street-level view far outside the world box. *)
Lemma generate_nothing_in_view_witness :
  generate Away.awayGlobe Away.awayView = Normal None
  /\ generate Scenario.flatWorld Away.offWorldView = Normal None.
Proof.
  split.
  - apply (proj1 (@generate_nothing_in_view _ _
                    Away.awayGlobe Away.awayView eq_refl) eq_refl).
    intros [| | |]; split; vm_compute; reflexivity.
  - refine (proj2 (@generate_nothing_in_view _ _
                     Scenario.flatWorld Away.offWorldView eq_refl)
                  _ eq_refl _ _ _).
    + intros height H. vm_compute in H. discriminate H.
    + intros _ corner [<- | [<- | [<- | [<- | []]]]]; vm_compute; reflexivity.
    + intros edge plane i
             [<- | [<- | [<- | [<- | []]]]]
             [<- | [<- | [<- | [<- | [<- | [<- | []]]]]]];
        intro H; vm_compute in H;
        first [discriminate H | injection H as <-; vm_compute; reflexivity].
Defined.

(** ** The rays of the wrapped world *)

(** X17.  The rays cast when tile wrapping is enabled.  All four start at an
    eastern corner of the world box: two at SE, on the line of the south
    edge, and two at NE, on the line of the north edge.  Their two directions
    are the normalized vectors [sw - se] and [se - sw], which are opposite
    and have no y component; the first, which the source calls
    [directionEast], has the x component [min.x - max.x], so on a world box
    of positive width it points west. *)
Theorem worldRays_directions
        {Camera Projection : Type} (X : Externals Camera Projection)
        (this : BoundsGenerator Camera Projection) (worldCorners : TileCorners) :
  getWorldConers X (m_projection this) = Some worldCorners ->
  let worldBox := worldExtent X (m_projection this) 0 0 in
  let directionEast := subVectors (sw worldCorners) (se worldCorners) in
  let directionWest := subVectors (se worldCorners) (sw worldCorners) in
  worldRays X worldCorners
  = [ EdgeRay (mkRay (se worldCorners) (normalize X directionEast));
      EdgeRay (mkRay (se worldCorners) (normalize X directionWest));
      EdgeRay (mkRay (ne worldCorners) (normalize X directionEast));
      EdgeRay (mkRay (ne worldCorners) (normalize X directionWest)) ]
  /\ x (se worldCorners) = x (box_max worldBox)
  /\ y (se worldCorners) = y (box_min worldBox)
  /\ ne worldCorners = box_max worldBox
  /\ x directionEast == x (box_min worldBox) - x (box_max worldBox)
  /\ y directionEast == 0
  /\ x directionWest == - x directionEast
  /\ y directionWest == 0
  /\ z directionWest == - z directionEast
  /\ (x (box_min worldBox) < x (box_max worldBox) -> x directionEast < 0).
Proof.
  intro H. unfold getWorldConers in H.
  destruct (projection_type X (m_projection this)); [| discriminate].
  injection H as <-. simpl.
  repeat split; try reflexivity; try ring.
  intro Hw. lra.
Qed.

(** X17, witness: the world box of the flat world's test double. *)
Lemma worldRays_directions_witness :
  x (subVectors (vec3 0 0 0) (vec3 Scenario.circumference 0 0)) < 0.
Proof.
  refine (proj2 (proj2 (proj2 (proj2 (proj2 (proj2 (proj2 (proj2 (proj2
            (@worldRays_directions _ _ Scenario.flatWorld Scenario.southEdgeView
               _ eq_refl))))))))) _).
  reflexivity.
Defined.
